(** * dainlp.utils.resources: the stage-aware memory tracker

    A shallow embedding of [MemoryTracker] (src/dainlp/utils/resources.py).

    Python integers are unbounded, so byte counts are [Z].  Instance
    attributes that a method may find missing are [option] fields of a
    record ([None] = the attribute was never assigned, reading it raises
    AttributeError).  Methods are programs of a small state-and-exception
    monad over a [World] holding the tracker object, the heap of metrics
    dictionaries (passed by reference and mutated in place) and the log of
    calls made to the collaborators (gc, torch.cuda, psutil, threading).
    The values the collaborators return are arguments of the methods. *)

From Stdlib Require Import ZArith List Lia.
From stdpp Require Import gmap strings list fin_maps.

Local Open Scope Z_scope.

(** ** Data model *)

(** The dictionary built by [dict(begin=..., end=..., alloc=..., peaked=...)]. *)
Record Snapshot := mkSnapshot {
  snap_begin : Z;
  snap_end : Z;
  snap_alloc : Z;
  snap_peaked : Z
}.

(** [k in snap] and [snap[k]] for a string key. *)
Definition snapshot_get (k : string) (s : Snapshot) : option Z :=
  if decide (k = "begin"%string) then Some (snap_begin s)
  else if decide (k = "end"%string) then Some (snap_end s)
  else if decide (k = "alloc"%string) then Some (snap_alloc s)
  else if decide (k = "peaked"%string) then Some (snap_peaked s)
  else None.

(** Keys of [self.cpu] and [self.gpu] are values of [self.cur_stage]:
    a stage name, or Python's [None]. *)
Abbreviation StageKey := (option string).

(** The attributes of a tracker instance. *)
Record MemoryTracker := mkTracker {
  skip_memory_metrics : bool;
  gpu : option (gmap StageKey Snapshot);
  cpu : option (gmap StageKey Snapshot);
  process : option unit;
  cur_stage : option (option string);
  init_reported : option bool;
  cpu_memory_used_peak : option Z;
  peak_monitoring : option bool;
  gpu_memory_used_at_start : option Z;
  cpu_memory_used_at_start : option Z;
  gpu_memory_used_now : option Z;
  gpu_memory_used_peak : option Z;
  cpu_memory_used_now : option Z
}.

(** Calls to the collaborators, in the order they are made. *)
Inductive Event :=
| EvGcCollect
| EvCudaResetPeakMemoryStats
| EvCudaEmptyCache
| EvCudaMemoryAllocated (v : Z)
| EvCudaMaxMemoryAllocated (v : Z)
| EvRss (v : Z)
| EvThreadStart
| EvSetItem (metrics : nat) (key : string) (v : Z).

Inductive Exn :=
| AssertionError
| AttributeError (name : string)
| KeyError (key : string)
| IndexError.

Record World := mkWorld {
  self : MemoryTracker;
  heap : gmap nat (gmap string Z);
  log : list Event
}.

(** ** The monad of methods: state, and exceptions that keep the state *)

Inductive Outcome (A : Type) :=
| Ok (a : A)
| Raise (e : Exn).
Arguments Ok {A} a.
Arguments Raise {A} e.

Definition M (A : Type) : Type := World -> Outcome A * World.

Definition ret {A} (a : A) : M A := fun w => (Ok a, w).

Definition raise {A} (e : Exn) : M A := fun w => (Raise e, w).

Definition bind {A B} (c : M A) (k : A -> M B) : M B :=
  fun w => match c w with
           | (Ok a, w') => k a w'
           | (Raise e, w') => (Raise e, w')
           end.

Declare Scope py_scope.
Delimit Scope py_scope with py.
Notation "x <- c1 ;; c2" := (bind c1 (fun x => c2))
  (at level 100, c1 at next level, c2 at level 200, right associativity) : py_scope.
Notation "c1 ;; c2" := (bind c1 (fun _ => c2))
  (at level 100, c2 at level 200, right associativity) : py_scope.
Local Open Scope py_scope.

Fixpoint for_each {A} (xs : list A) (body : A -> M unit) : M unit :=
  match xs with
  | [] => ret tt
  | x :: xs' => body x ;; for_each xs' body
  end.

Definition getattr {A} (name : string) (field : MemoryTracker -> option A) : M A :=
  fun w => match field (self w) with
           | Some a => (Ok a, w)
           | None => (Raise (AttributeError name), w)
           end.

Definition setattr (upd : MemoryTracker -> MemoryTracker) : M unit :=
  fun w => (Ok tt, mkWorld (upd (self w)) (heap w) (log w)).

Definition emit (e : Event) : M unit :=
  fun w => (Ok tt, mkWorld (self w) (heap w) (log w ++ [e])).

(** [metrics[key] = v] on the dictionary at reference [l]. *)
Definition setitem (l : nat) (key : string) (v : Z) : M unit :=
  fun w => (Ok tt, mkWorld (self w) (alter (insert key v) l (heap w))
                           (log w ++ [EvSetItem l key v])).

(** Attribute assignment, one function per attribute. *)
Definition set_gpu v (t : MemoryTracker) : MemoryTracker :=
  mkTracker (skip_memory_metrics t) (Some v) (cpu t) (process t) (cur_stage t)
    (init_reported t) (cpu_memory_used_peak t) (peak_monitoring t)
    (gpu_memory_used_at_start t) (cpu_memory_used_at_start t)
    (gpu_memory_used_now t) (gpu_memory_used_peak t) (cpu_memory_used_now t).

Definition set_cpu v (t : MemoryTracker) : MemoryTracker :=
  mkTracker (skip_memory_metrics t) (gpu t) (Some v) (process t) (cur_stage t)
    (init_reported t) (cpu_memory_used_peak t) (peak_monitoring t)
    (gpu_memory_used_at_start t) (cpu_memory_used_at_start t)
    (gpu_memory_used_now t) (gpu_memory_used_peak t) (cpu_memory_used_now t).

Definition set_cur_stage v (t : MemoryTracker) : MemoryTracker :=
  mkTracker (skip_memory_metrics t) (gpu t) (cpu t) (process t) (Some v)
    (init_reported t) (cpu_memory_used_peak t) (peak_monitoring t)
    (gpu_memory_used_at_start t) (cpu_memory_used_at_start t)
    (gpu_memory_used_now t) (gpu_memory_used_peak t) (cpu_memory_used_now t).

Definition set_init_reported v (t : MemoryTracker) : MemoryTracker :=
  mkTracker (skip_memory_metrics t) (gpu t) (cpu t) (process t) (cur_stage t)
    (Some v) (cpu_memory_used_peak t) (peak_monitoring t)
    (gpu_memory_used_at_start t) (cpu_memory_used_at_start t)
    (gpu_memory_used_now t) (gpu_memory_used_peak t) (cpu_memory_used_now t).

Definition set_cpu_memory_used_peak v (t : MemoryTracker) : MemoryTracker :=
  mkTracker (skip_memory_metrics t) (gpu t) (cpu t) (process t) (cur_stage t)
    (init_reported t) (Some v) (peak_monitoring t)
    (gpu_memory_used_at_start t) (cpu_memory_used_at_start t)
    (gpu_memory_used_now t) (gpu_memory_used_peak t) (cpu_memory_used_now t).

Definition set_peak_monitoring v (t : MemoryTracker) : MemoryTracker :=
  mkTracker (skip_memory_metrics t) (gpu t) (cpu t) (process t) (cur_stage t)
    (init_reported t) (cpu_memory_used_peak t) (Some v)
    (gpu_memory_used_at_start t) (cpu_memory_used_at_start t)
    (gpu_memory_used_now t) (gpu_memory_used_peak t) (cpu_memory_used_now t).

Definition set_gpu_memory_used_at_start v (t : MemoryTracker) : MemoryTracker :=
  mkTracker (skip_memory_metrics t) (gpu t) (cpu t) (process t) (cur_stage t)
    (init_reported t) (cpu_memory_used_peak t) (peak_monitoring t)
    (Some v) (cpu_memory_used_at_start t)
    (gpu_memory_used_now t) (gpu_memory_used_peak t) (cpu_memory_used_now t).

Definition set_cpu_memory_used_at_start v (t : MemoryTracker) : MemoryTracker :=
  mkTracker (skip_memory_metrics t) (gpu t) (cpu t) (process t) (cur_stage t)
    (init_reported t) (cpu_memory_used_peak t) (peak_monitoring t)
    (gpu_memory_used_at_start t) (Some v)
    (gpu_memory_used_now t) (gpu_memory_used_peak t) (cpu_memory_used_now t).

Definition set_gpu_memory_used_now v (t : MemoryTracker) : MemoryTracker :=
  mkTracker (skip_memory_metrics t) (gpu t) (cpu t) (process t) (cur_stage t)
    (init_reported t) (cpu_memory_used_peak t) (peak_monitoring t)
    (gpu_memory_used_at_start t) (cpu_memory_used_at_start t)
    (Some v) (gpu_memory_used_peak t) (cpu_memory_used_now t).

Definition set_gpu_memory_used_peak v (t : MemoryTracker) : MemoryTracker :=
  mkTracker (skip_memory_metrics t) (gpu t) (cpu t) (process t) (cur_stage t)
    (init_reported t) (cpu_memory_used_peak t) (peak_monitoring t)
    (gpu_memory_used_at_start t) (cpu_memory_used_at_start t)
    (gpu_memory_used_now t) (Some v) (cpu_memory_used_now t).

Definition set_cpu_memory_used_now v (t : MemoryTracker) : MemoryTracker :=
  mkTracker (skip_memory_metrics t) (gpu t) (cpu t) (process t) (cur_stage t)
    (init_reported t) (cpu_memory_used_peak t) (peak_monitoring t)
    (gpu_memory_used_at_start t) (cpu_memory_used_at_start t)
    (gpu_memory_used_now t) (gpu_memory_used_peak t) (Some v).

(** ** MemoryTracker *)

(** The class attribute [stages]. *)
Definition stages : gmap string string :=
  list_to_map [("__init__", "init"); ("train", "train"); ("evaluate", "eval");
               ("predict", "test"); ("test_MemoryTracker", "init")]%string.

(** [__init__(self, skip_memory_metrics=False)]: the freshly built object. *)
Definition init (skip : bool) : MemoryTracker :=
  if skip then
    mkTracker true None None None None None None None None None None None None
  else
    mkTracker false (Some ∅) (Some ∅) (Some tt) (Some None) (Some false)
      None None None None None None None.

(** [derive_stage]: [caller] is the [co_name] of the frame two up from
    [derive_stage], which is the function that called the tracker's method. *)
Definition derive_stage (caller : string) : M string :=
  match stages !! caller with
  | Some stage => ret stage
  | None => raise AssertionError
  end.

(** [cpu_mem_used]; [rss] is what [self.process.memory_info().rss] returns. *)
Definition cpu_mem_used (rss : Z) : M Z :=
  _ <- getattr "process" process ;;
  emit (EvRss rss) ;;
  ret rss.

(** [self.cur_stage is not None and self.cur_stage != stage] *)
Definition other_stage_open (cur : option string) (stage : string) : bool :=
  match cur with
  | None => false
  | Some c => bool_decide (c ≠ stage)
  end.

(** [start]; [cuda_allocated] is what [torch.cuda.memory_allocated()] returns
    and [rss] what the process reports at line 55. *)
Definition start (caller : string) (cuda_allocated rss : Z) : M unit :=
  fun w =>
  (if skip_memory_metrics (self w) then ret tt else
   stage <- derive_stage caller ;;
   cur <- getattr "cur_stage" cur_stage ;;
   if other_stage_open cur stage then ret tt else
   setattr (set_cur_stage (Some stage)) ;;
   emit EvGcCollect ;;
   emit EvCudaResetPeakMemoryStats ;;
   emit EvCudaEmptyCache ;;
   emit (EvCudaMemoryAllocated cuda_allocated) ;;
   setattr (set_gpu_memory_used_at_start cuda_allocated) ;;
   r <- cpu_mem_used rss ;;
   setattr (set_cpu_memory_used_at_start r) ;;
   setattr (set_peak_monitoring true) ;;
   emit EvThreadStart) w.

(** [stop]; [cuda_allocated], [cuda_max_allocated] and [rss] are what
    [torch.cuda.memory_allocated()], [torch.cuda.max_memory_allocated()]
    and the process report at lines 68, 69 and 73.  In an assignment
    [self.gpu[self.cur_stage] = dict(...)] the right-hand side is evaluated
    first, then [self.gpu], then [self.cur_stage]. *)
Definition stop (stage : string) (cuda_allocated cuda_max_allocated rss : Z) : M unit :=
  cur <- getattr "cur_stage" cur_stage ;;
  if other_stage_open cur stage then ret tt else
  setattr (set_peak_monitoring false) ;;
  emit EvGcCollect ;;
  emit EvCudaEmptyCache ;;
  emit (EvCudaMemoryAllocated cuda_allocated) ;;
  setattr (set_gpu_memory_used_now cuda_allocated) ;;
  emit (EvCudaMaxMemoryAllocated cuda_max_allocated) ;;
  setattr (set_gpu_memory_used_peak cuda_max_allocated) ;;
  g_start <- getattr "gpu_memory_used_at_start" gpu_memory_used_at_start ;;
  g_now <- getattr "gpu_memory_used_now" gpu_memory_used_now ;;
  g_peak <- getattr "gpu_memory_used_peak" gpu_memory_used_peak ;;
  g <- getattr "gpu" gpu ;;
  key <- getattr "cur_stage" cur_stage ;;
  setattr (set_gpu (<[key := mkSnapshot g_start g_now (g_now - g_start)
                                        (Z.max 0 (g_peak - g_now))]> g)) ;;
  r <- cpu_mem_used rss ;;
  setattr (set_cpu_memory_used_now r) ;;
  c_start <- getattr "cpu_memory_used_at_start" cpu_memory_used_at_start ;;
  c_now <- getattr "cpu_memory_used_now" cpu_memory_used_now ;;
  c_peak <- getattr "cpu_memory_used_peak" cpu_memory_used_peak ;;
  c <- getattr "cpu" cpu ;;
  key <- getattr "cur_stage" cur_stage ;;
  setattr (set_cpu (<[key := mkSnapshot c_start c_now (c_now - c_start)
                                        (Z.max 0 (c_peak - c_now))]> c)) ;;
  setattr (set_cur_stage None).

(** The f-strings of lines 91 and 93. *)
Definition cpu_key (stage k : string) : string :=
  stage +:+ "_memory_cpu_" +:+ k +:+ "_delta".

Definition gpu_key (stage k : string) : string :=
  stage +:+ "_memory_gpu_" +:+ k +:+ "_delta".

(** [d[stage]] on a per-stage dictionary and [snap[k]] on a snapshot. *)
Definition getitem_stage (d : gmap StageKey Snapshot) (stage : string) : M Snapshot :=
  match d !! Some stage with
  | Some snap => ret snap
  | None => raise (KeyError stage)
  end.

Definition getitem_snap (snap : Snapshot) (k : string) : M Z :=
  match snapshot_get k snap with
  | Some v => ret v
  | None => raise (KeyError k)
  end.

(** Lines 90-93, the body of the two nested loops of [update_metrics]. *)
Definition write_deltas (metrics : nat) (stage k : string) : M unit :=
  c <- getattr "cpu" cpu ;;
  match c !! Some stage with
  | Some snap =>
      match snapshot_get k snap with
      | Some v => setitem metrics (cpu_key stage k) v
      | None => ret tt
      end
  | None => ret tt
  end ;;
  g <- getattr "gpu" gpu ;;
  match g !! Some stage with
  | Some snap =>
      match snapshot_get k snap with
      | Some v => setitem metrics (gpu_key stage k) v
      | None => ret tt
      end
  | None => ret tt
  end.

(** Lines 83-86: the list of stages to emit. *)
Definition stages_to_emit (stage : string) : M (list string) :=
  reported <- getattr "init_reported" init_reported ;;
  if negb reported then
    setattr (set_init_reported true) ;;
    ret ["init"; stage]%string
  else ret [stage].

(** Lines 95-97. *)
Definition write_before_init (metrics : nat) (stages : list string) : M unit :=
  match stages with
  | [] => raise IndexError
  | first :: _ =>
      if bool_decide (first = "init"%string) then
        c <- getattr "cpu" cpu ;;
        snap <- getitem_stage c "init" ;;
        v <- getitem_snap snap "begin" ;;
        setitem metrics "before_init_memory_cpu" v ;;
        g <- getattr "gpu" gpu ;;
        snap <- getitem_stage g "init" ;;
        v <- getitem_snap snap "begin" ;;
        setitem metrics "before_init_memory_gpu" v
      else ret tt
  end.

(** [update_metrics]; [metrics] is the reference of the caller's dictionary. *)
Definition update_metrics (stage : string) (metrics : nat) : M unit :=
  fun w =>
  (if skip_memory_metrics (self w) then ret tt else
   cur <- getattr "cur_stage" cur_stage ;;
   if other_stage_open cur stage then ret tt else
   stages <- stages_to_emit stage ;;
   for_each stages (fun stage =>
     for_each ["alloc"; "peaked"]%string (fun k => write_deltas metrics stage k)) ;;
   write_before_init metrics stages) w.

(** [stop_and_update_metrics]; [metrics = None] is Python's default [None]. *)
Definition stop_and_update_metrics (caller : string)
    (cuda_allocated cuda_max_allocated rss : Z) (metrics : option nat) : M unit :=
  fun w =>
  (if skip_memory_metrics (self w) then ret tt else
   stage <- derive_stage caller ;;
   stop stage cuda_allocated cuda_max_allocated rss ;;
   match metrics with
   | Some l => update_metrics stage l
   | None => ret tt
   end) w.

(** ** The sampler thread *)

(** One trip round the loop of [peak_monitor_function] (lines 36-42): one
    reading, the running maximum, then the check of the flag.  The result
    says whether the loop breaks. *)
Definition peak_monitor_body (rss : Z) : M bool :=
  r <- cpu_mem_used rss ;;
  peak <- getattr "cpu_memory_used_peak" cpu_memory_used_peak ;;
  setattr (set_cpu_memory_used_peak (Z.max r peak)) ;;
  monitoring <- getattr "peak_monitoring" peak_monitoring ;;
  ret (negb monitoring).

(** What happens while the thread runs, iteration by iteration: the thread
    makes one trip round its loop with the given reading, or the owner
    assigns [self.peak_monitoring] (line 57 or line 65) between two trips. *)
Inductive Tick :=
| Sample (rss : Z)
| OwnerSets (flag : bool).

(** The loop under a schedule.  [true]: the loop has broken and the
    function has returned; [false]: the thread is still in its loop when
    the schedule ends. *)
Fixpoint peak_monitor_loop (sch : list Tick) : M bool :=
  match sch with
  | [] => ret false
  | OwnerSets flag :: sch' =>
      setattr (set_peak_monitoring flag) ;;
      peak_monitor_loop sch'
  | Sample rss :: sch' =>
      broke <- peak_monitor_body rss ;;
      if broke then ret true else peak_monitor_loop sch'
  end.

Definition peak_monitor_function (sch : list Tick) : M bool :=
  setattr (set_cpu_memory_used_peak (-1)) ;;
  peak_monitor_loop sch.

(** ** Running the model on concrete inputs *)

Definition fresh (skip : bool) : World := mkWorld (init skip) {[ 0%nat := ∅ ]} [].

Definition run {A} (c : M A) (w : World) : World := snd (c w).
Definition outcome {A} (c : M A) (w : World) : Outcome A := fst (c w).

(** What a program appended to the log of collaborator calls. *)
Definition new_events {A} (c : M A) (w : World) : list Event :=
  drop (length (log w)) (log (run c w)).

(** The collaborator calls of one [start] that gets past its gates. *)
Definition start_events (cuda_allocated rss : Z) : list Event :=
  [EvGcCollect; EvCudaResetPeakMemoryStats; EvCudaEmptyCache;
   EvCudaMemoryAllocated cuda_allocated; EvRss rss; EvThreadStart].

(** The collaborator calls of one [stop] that gets past its gate. *)
Definition stop_events (cuda_allocated cuda_max_allocated rss : Z) : list Event :=
  [EvGcCollect; EvCudaEmptyCache; EvCudaMemoryAllocated cuda_allocated;
   EvCudaMaxMemoryAllocated cuda_max_allocated; EvRss rss].

(** The flag each trip round the sampler's loop would find at its check, with
    the reading of that trip, were the thread never to leave its loop. *)
Fixpoint observations (sch : list Tick) (flag : bool) : list (Z * bool) :=
  match sch with
  | [] => []
  | OwnerSets b :: sch' => observations sch' b
  | Sample r :: sch' => (r, flag) :: observations sch' flag
  end.

(** The trips up to and including the first one whose check finds the
    flag false. *)
Fixpoint until_flag_false (obs : list (Z * bool)) : list (Z * bool) :=
  match obs with
  | [] => []
  | (r, f) :: obs' => (r, f) :: (if f then until_flag_false obs' else [])
  end.

(** The readings in a log. *)
Definition readings (evs : list Event) : list Z :=
  omap (fun e => match e with EvRss v => Some v | _ => None end) evs.

(** The result of the loop, as a function of the schedule. *)
Fixpoint loop_result (sch : list Tick) (flag : bool) (peak : Z)
  : bool * bool * Z * list Z :=
  match sch with
  | [] => (false, flag, peak, [])
  | OwnerSets b :: sch' => loop_result sch' b peak
  | Sample r :: sch' =>
      if flag then
        let '(ex, f, p, rs) := loop_result sch' flag (Z.max r peak) in (ex, f, p, r :: rs)
      else (true, flag, Z.max r peak, [r])
  end.

(** The readings the sampler takes and the peak it leaves under a schedule. *)
Definition sampler_taken (sch : list Tick) (w : World) : list Z :=
  readings (new_events (peak_monitor_function sch) w).

Definition sampler_peak (sch : list Tick) (w : World) : option Z :=
  cpu_memory_used_peak (self (run (peak_monitor_function sch) w)).

(** After the owner has cleared the flag, nobody sets it again. *)
Definition flag_stays_false (sch : list Tick) : Prop :=
  Forall (fun t => t ≠ OwnerSets true) sch.

(** ** Writes to the metrics dictionaries *)

(** The two kinds of delta and the two memory domains of [update_metrics]. *)
Definition kinds : list string := ["alloc"; "peaked"]%string.

Inductive Domain := Cpu | Gpu.

Definition delta_key (d : Domain) : string → string → string :=
  match d with Cpu => cpu_key | Gpu => gpu_key end.

Definition before_init_key (d : Domain) : string :=
  match d with
  | Cpu => "before_init_memory_cpu"
  | Gpu => "before_init_memory_gpu"
  end%string.

(** The heap after the [EvSetItem] events of a log are applied to it. *)
Definition replay (evs : list Event) (h : gmap nat (gmap string Z))
  : gmap nat (gmap string Z) :=
  foldl (fun h e => match e with
                    | EvSetItem l key v => alter (insert key v) l h
                    | _ => h
                    end) h evs.

(** One dictionary after the writes a log makes to reference [l]. *)
Definition dict_after (evs : list Event) (l : nat) (m : gmap string Z)
  : gmap string Z :=
  foldl (fun m e => match e with
                    | EvSetItem l' key v => if decide (l' = l) then <[key := v]> m else m
                    | _ => m
                    end) m evs.

(** A world after a program that only wrote [evs]. *)
Definition wrote (evs : list Event) (w : World) : World :=
  mkWorld (self w) (replay evs (heap w)) (log w ++ evs).

(** The write of line 91 or 93, when the stage has a snapshot. *)
Definition delta_writes (l : nat) (dict : gmap StageKey Snapshot) (d : Domain)
    (stage k : string) : list Event :=
  match dict !! Some stage with
  | Some snap =>
      match snapshot_get k snap with
      | Some v => [EvSetItem l (delta_key d stage k) v]
      | None => []
      end
  | None => []
  end.

(** The writes of the inner loop for one stage. *)
Definition stage_writes (l : nat) (cm gm : gmap StageKey Snapshot) (stage : string)
  : list Event :=
  delta_writes l cm Cpu stage "alloc" ++ delta_writes l gm Gpu stage "alloc" ++
  delta_writes l cm Cpu stage "peaked" ++ delta_writes l gm Gpu stage "peaked".

(** The stages [update_metrics] emits. *)
Definition emitted (reported : bool) (stage : string) : list string :=
  if reported then [stage] else ["init"; stage]%string.

(** Lines 95-97: the result and the writes. *)
Definition before_init_result (l : nat) (cm gm : gmap StageKey Snapshot)
    (reported : bool) (stage : string) : Outcome unit * list Event :=
  if negb reported || bool_decide (stage = "init"%string) then
    match cm !! Some "init"%string with
    | None => (Raise (KeyError "init"), [])
    | Some ci =>
        match gm !! Some "init"%string with
        | None => (Raise (KeyError "init"),
                   [EvSetItem l (before_init_key Cpu) (snap_begin ci)])
        | Some gi => (Ok tt,
                      [EvSetItem l (before_init_key Cpu) (snap_begin ci);
                       EvSetItem l (before_init_key Gpu) (snap_begin gi)])
        end
    end
  else (Ok tt, []).

(** All the writes of one [update_metrics] that gets past its gates. *)
Definition update_writes (l : nat) (cm gm : gmap StageKey Snapshot)
    (reported : bool) (stage : string) : list Event :=
  concat (map (stage_writes l cm gm) (emitted reported stage)) ++
  (before_init_result l cm gm reported stage).2.

(** The last [n] characters of a string, last first. *)
Definition tail_chars (n : nat) (s : string) : list Ascii.ascii :=
  take n (rev (String.list_ascii_of_string s)).

(** [self.cpu] or [self.gpu], by domain. *)
Definition domain_dict (cm gm : gmap StageKey Snapshot) (d : Domain)
  : gmap StageKey Snapshot :=
  match d with Cpu => cm | Gpu => gm end.

(** ** Scenarios *)

(** The tracker after a [train] cycle on a fresh tracker: no [init]
    snapshot was ever taken. *)
Definition train_only : World := Eval vm_compute in
  run (start "train" 10 100 ;;
       peak_monitor_function [Sample 180] ;;
       stop "train" 15 20 150) (fresh false).

(** The tracker after [__init__] has measured itself and a [train] cycle
    has completed, before any metrics were reported. *)
Definition init_then_train : World := Eval vm_compute in
  run (start "__init__" 1 50 ;;
       peak_monitor_function [Sample 60] ;;
       stop_and_update_metrics "__init__" 4 9 55 None ;;
       start "train" 10 100 ;;
       peak_monitor_function [Sample 180] ;;
       stop "train" 15 20 150) (fresh false).

(** The flow of [test_MemoryTracker]: a cycle whose stage resolves to
    [init], reported into the dictionary at reference 0. *)
Definition after_test_cycle : World := Eval vm_compute in
  run (start "test_MemoryTracker" 10 100 ;;
       peak_monitor_function [Sample 180] ;;
       stop_and_update_metrics "test_MemoryTracker" 15 20 150 (Some 0%nat))
      (fresh false).

(** ** Calls on a tracker *)

Inductive Call :=
| CallStart (caller : string) (cuda_allocated rss : Z)
| CallStop (stage : string) (cuda_allocated cuda_max_allocated rss : Z)
| CallUpdateMetrics (stage : string) (metrics : nat)
| CallStopAndUpdateMetrics (caller : string)
    (cuda_allocated cuda_max_allocated rss : Z) (metrics : option nat)
| SamplerRuns (sch : list Tick).

Definition exec (c : Call) : M unit :=
  match c with
  | CallStart caller a r => start caller a r
  | CallStop stage a m r => stop stage a m r
  | CallUpdateMetrics stage l => update_metrics stage l
  | CallStopAndUpdateMetrics caller a m r l => stop_and_update_metrics caller a m r l
  | SamplerRuns sch => peak_monitor_function sch ;; ret tt
  end.

(** A program never clears [init_reported] once it is set. *)
Definition keeps_reported {A} (c : M A) : Prop :=
  ∀ w, init_reported (self w) = Some true →
       init_reported (self (c w).2) = Some true.

(** ** Sequences of calls and what they keep *)

(** Calls made one after the other; an exception raised by one of them is
    caught by the caller, who goes on. *)
Definition run_calls (cs : list Call) (w : World) : World :=
  foldl (fun w c => run (exec c) w) w cs.

(** A program keeps a property of the world, however it ends. *)
Definition preserves (P : World → Prop) {A} (c : M A) : Prop :=
  ∀ w, P w → P (c w).2.

(** The four logical stages, the values of the table [stages]. *)
Definition stage_names : list string := ["init"; "train"; "eval"; "test"]%string.

(** A value of [self.cur_stage]: [None], or one of the four stages. *)
Definition known_stage (k : StageKey) : Prop :=
  match k with
  | None => True
  | Some s => s ∈ stage_names
  end.

(** What [stop] computes: the delta is end minus begin and the peak above
    the end is not negative. *)
Definition snapshot_ok (s : Snapshot) : Prop :=
  snap_alloc s = snap_end s - snap_begin s ∧ 0 ≤ snap_peaked s.

(** The state of a tracker built with [skip_memory_metrics=False], at
    any point of its life. *)
Record tracker_wf (t : MemoryTracker) : Prop := mkWf {
  wf_skip : skip_memory_metrics t = false;
  wf_process : process t = Some tt;
  wf_reported : is_Some (init_reported t);
  wf_cur : ∃ cur, cur_stage t = Some cur ∧ known_stage cur;
  wf_begin : is_Some (gpu_memory_used_at_start t) →
             is_Some (cpu_memory_used_at_start t);
  wf_dicts : ∃ gm cm, gpu t = Some gm ∧ cpu t = Some cm ∧
               dom cm ⊆ dom gm ∧
               (∀ k, k ∈ dom gm → known_stage k) ∧
               map_Forall (fun _ s => snapshot_ok s) gm ∧
               map_Forall (fun _ s => snapshot_ok s) cm
}.

(** ** The test of the module *)

(** [metrics = {}]: a new dictionary, at a reference not yet in use. *)
Definition new_dict : M nat :=
  fun w => let l := base.fresh (dom (heap w)) in
           (Ok l, mkWorld (self w) (<[l := ∅]> (heap w)) (log w)).

(** [metrics[key]] read from the dictionary at reference [l]. *)
Definition getitem_metrics (l : nat) (key : string) : M Z :=
  fun w => match heap w !! l with
           | Some m => match m !! key with
                       | Some v => (Ok v, w)
                       | None => (Raise (KeyError key), w)
                       end
           | None => (Raise (KeyError key), w)
           end.

(** [test_MemoryTracker], lines 113-132, up to the value of
    [gpu_memory_required].  The model and its training steps (lines 109-111
    and 116-127) are the measured work: they reach the tracker only through
    the readings, and the sampler makes its trips [rs] meanwhile. *)
Definition test_MemoryTracker (gpu_begin cpu_begin : Z) (rs : list Z)
    (gpu_end gpu_peak cpu_end : Z) : M Z :=
  setattr (fun _ => init false) ;;
  start "test_MemoryTracker" gpu_begin cpu_begin ;;
  peak_monitor_function (map Sample rs) ;;
  metrics <- new_dict ;;
  stop_and_update_metrics "test_MemoryTracker" gpu_end gpu_peak cpu_end (Some metrics) ;;
  before <- getitem_metrics metrics "before_init_memory_gpu" ;;
  alloc <- getitem_metrics metrics "init_memory_gpu_alloc_delta" ;;
  peaked <- getitem_metrics metrics "init_memory_gpu_peaked_delta" ;;
  ret (before + alloc + peaked).

(** * Proofs *)

Ltac unfold_py :=
  cbv beta iota zeta delta
    [start stop update_metrics stop_and_update_metrics stages_to_emit
     write_before_init write_deltas getitem_stage getitem_snap cpu_mem_used
     peak_monitor_function peak_monitor_body
     bind ret raise getattr setattr emit setitem for_each run outcome
     self heap log fst snd negb
     skip_memory_metrics gpu cpu process cur_stage init_reported
     cpu_memory_used_peak peak_monitoring gpu_memory_used_at_start
     cpu_memory_used_at_start gpu_memory_used_now gpu_memory_used_peak
     cpu_memory_used_now
     set_gpu set_cpu set_cur_stage set_init_reported set_cpu_memory_used_peak
     set_peak_monitoring set_gpu_memory_used_at_start
     set_cpu_memory_used_at_start set_gpu_memory_used_now
     set_gpu_memory_used_peak set_cpu_memory_used_now].

Ltac open_world w :=
  destruct w as [[? ? ? ? ? ? ? ? ? ? ? ? ?] ? ?];
  cbv beta iota delta
    [self heap log skip_memory_metrics gpu cpu process cur_stage init_reported
     cpu_memory_used_peak peak_monitoring gpu_memory_used_at_start
     cpu_memory_used_at_start gpu_memory_used_now gpu_memory_used_peak
     cpu_memory_used_now] in *;
  subst.

Section StartStop.

Lemma derive_stage_known caller stage w :
  stages !! caller = Some stage → derive_stage caller w = (Ok stage, w).
Proof. intros H. unfold derive_stage. now rewrite H. Qed.

Lemma start_runs w caller stage cur a r :
  skip_memory_metrics (self w) = false →
  process (self w) = Some tt →
  cur_stage (self w) = Some cur →
  stages !! caller = Some stage →
  other_stage_open cur stage = false →
  start caller a r w =
    (Ok tt,
     mkWorld (set_peak_monitoring true
                (set_cpu_memory_used_at_start r
                   (set_gpu_memory_used_at_start a
                      (set_cur_stage (Some stage) (self w)))))
             (heap w) (log w ++ start_events a r)).
Proof.
  intros Hskip Hproc Hcur Hst Hopen. open_world w.
  unfold start. cbv beta iota delta [self skip_memory_metrics].
  unfold bind at 1. rewrite (derive_stage_known _ _ _ Hst).
  unfold_py. rewrite Hopen. unfold start_events.
  now rewrite <- !app_assoc.
Qed.

Lemma stop_runs w stage cur gm cm gs cs pk a m r :
  cur_stage (self w) = Some cur →
  other_stage_open cur stage = false →
  gpu (self w) = Some gm →
  cpu (self w) = Some cm →
  process (self w) = Some tt →
  gpu_memory_used_at_start (self w) = Some gs →
  cpu_memory_used_at_start (self w) = Some cs →
  cpu_memory_used_peak (self w) = Some pk →
  stop stage a m r w =
    (Ok tt,
     mkWorld
       (set_cur_stage None
          (set_cpu (<[cur := mkSnapshot cs r (r - cs) (Z.max 0 (pk - r))]> cm)
             (set_cpu_memory_used_now r
                (set_gpu (<[cur := mkSnapshot gs a (a - gs) (Z.max 0 (m - a))]> gm)
                   (set_gpu_memory_used_peak m
                      (set_gpu_memory_used_now a
                         (set_peak_monitoring false (self w))))))))
       (heap w) (log w ++ stop_events a m r)).
Proof.
  intros Hcur Hopen Hg Hc Hp Hgs Hcs Hpk. open_world w.
  unfold_py. rewrite Hopen. unfold stop_events.
  now rewrite <- !app_assoc.
Qed.

Lemma stop_gated w stage cur a m r :
  cur_stage (self w) = Some cur →
  other_stage_open cur stage = true →
  stop stage a m r w = (Ok tt, w).
Proof.
  intros Hcur Hopen. open_world w. unfold_py. now rewrite Hopen.
Qed.

End StartStop.

Section Sampler.

Lemma peak_monitor_loop_runs sch : ∀ w flag peak,
  process (self w) = Some tt →
  peak_monitoring (self w) = Some flag →
  cpu_memory_used_peak (self w) = Some peak →
  peak_monitor_loop sch w =
    let '(ex, f, p, rs) := loop_result sch flag peak in
    (Ok ex,
     mkWorld (set_peak_monitoring f (set_cpu_memory_used_peak p (self w)))
             (heap w) (log w ++ map EvRss rs)).
Proof.
  induction sch as [|[r|b] sch IH]; intros w flag peak Hp Hf Hpk.
  - open_world w. cbn. now rewrite app_nil_r.
  - cbn [peak_monitor_loop loop_result].
    unfold bind at 1.
    assert (Hbody : peak_monitor_body r w =
              (Ok (negb flag),
               mkWorld (set_cpu_memory_used_peak (Z.max r peak) (self w))
                       (heap w) (log w ++ [EvRss r]))).
    { open_world w. now unfold_py. }
    rewrite Hbody. destruct flag; cbn [negb].
    + erewrite IH; [|open_world w; reflexivity..].
      destruct (loop_result sch true (Z.max r peak)) as [[[ex f] p] rs].
      open_world w. unfold_py. cbn [map]. now rewrite <- app_assoc.
    + open_world w. now unfold_py.
  - cbn [peak_monitor_loop loop_result].
    unfold bind at 1. unfold setattr at 1.
    erewrite IH; [|open_world w; reflexivity..].
    destruct (loop_result sch b peak) as [[[ex f] p] rs].
    open_world w. now unfold_py.
Qed.

End Sampler.

Section Snapshots.

Lemma fold_max_shift rs : ∀ r p,
  fold_right Z.max (Z.max r p) rs = Z.max r (fold_right Z.max p rs).
Proof. induction rs as [|x rs IH]; intros r p; cbn; [reflexivity|]. rewrite IH. lia. Qed.

Lemma loop_result_samples rs : ∀ p,
  loop_result (map Sample rs) true p = (false, true, fold_right Z.max p rs, rs).
Proof.
  induction rs as [|r rs IH]; intros p; cbn; [reflexivity|].
  now rewrite IH, fold_max_shift.
Qed.

(** One whole cycle from an idle tracker: [start()] from a call site bound
    to [stage], the sampler's trips with readings [rs], then [stop(stage)]. *)
Lemma cycle_runs w caller stage gm cm
    (gpu_begin cpu_begin : Z) (rs : list Z) (gpu_end gpu_peak cpu_end : Z) :
  skip_memory_metrics (self w) = false →
  process (self w) = Some tt →
  gpu (self w) = Some gm →
  cpu (self w) = Some cm →
  cur_stage (self w) = Some None →
  stages !! caller = Some stage →
  (start caller gpu_begin cpu_begin ;;
   peak_monitor_function (map Sample rs) ;;
   stop stage gpu_end gpu_peak cpu_end) w =
    (Ok tt,
     mkWorld
       (set_cur_stage None
          (set_cpu (<[Some stage := mkSnapshot cpu_begin cpu_end (cpu_end - cpu_begin)
                                      (Z.max 0 (fold_right Z.max (-1) rs - cpu_end))]> cm)
             (set_cpu_memory_used_now cpu_end
                (set_gpu (<[Some stage := mkSnapshot gpu_begin gpu_end (gpu_end - gpu_begin)
                                            (Z.max 0 (gpu_peak - gpu_end))]> gm)
                   (set_gpu_memory_used_peak gpu_peak
                      (set_gpu_memory_used_now gpu_end
                         (set_peak_monitoring false
                            (set_cpu_memory_used_peak (fold_right Z.max (-1) rs)
                               (set_peak_monitoring true
                                  (set_cpu_memory_used_at_start cpu_begin
                                     (set_gpu_memory_used_at_start gpu_begin
                                        (set_cur_stage (Some stage) (self w)))))))))))))
       (heap w)
       (((log w ++ start_events gpu_begin cpu_begin) ++ map EvRss rs)
          ++ stop_events gpu_end gpu_peak cpu_end)).
Proof.
  intros Hskip Hproc Hg Hc Hcur Hst.
  unfold bind at 1.
  rewrite (start_runs w caller stage None gpu_begin cpu_begin) by (auto; reflexivity).
  unfold bind at 1. unfold peak_monitor_function, bind at 1, setattr at 1.
  erewrite peak_monitor_loop_runs with (flag := true) (peak := -1);
    [|open_world w; reflexivity..].
  rewrite loop_result_samples.
  erewrite stop_runs with (cur := Some stage);
    [|open_world w; try reflexivity..].
  - open_world w. reflexivity.
  - cbn. now rewrite bool_decide_eq_false_2 by auto.
Qed.

(** C1. [start()] from a call site bound to stage [s], the sampler making
    its trips with readings [rs] while the stage runs, then [stop(s)]:
    the call returns normally and stores for [s] the CPU snapshot
    [{begin; end; alloc = end - begin; peaked = max(0, peak - end)}], where
    [peak] is the sampler's running maximum, and the accelerator snapshot
    by the same arithmetic on its own begin, end and peak readings. *)
Theorem start_then_stop_snapshot w caller stage gm cm
    (gpu_begin cpu_begin : Z) (rs : list Z) (gpu_end gpu_peak cpu_end : Z) :
  skip_memory_metrics (self w) = false →
  process (self w) = Some tt →
  gpu (self w) = Some gm →
  cpu (self w) = Some cm →
  cur_stage (self w) = Some None →
  stages !! caller = Some stage →
  let observed_peak := fold_right Z.max (-1) rs in
  let prog := start caller gpu_begin cpu_begin ;;
              peak_monitor_function (map Sample rs) ;;
              stop stage gpu_end gpu_peak cpu_end in
  outcome prog w = Ok tt ∧
  cpu (self (run prog w)) =
    Some (<[Some stage := mkSnapshot cpu_begin cpu_end (cpu_end - cpu_begin)
                            (Z.max 0 (observed_peak - cpu_end))]> cm) ∧
  gpu (self (run prog w)) =
    Some (<[Some stage := mkSnapshot gpu_begin gpu_end (gpu_end - gpu_begin)
                            (Z.max 0 (gpu_peak - gpu_end))]> gm) ∧
  cur_stage (self (run prog w)) = Some None.
Proof.
  intros Hskip Hproc Hg Hc Hcur Hst observed_peak prog.
  unfold outcome, run, prog.
  rewrite (cycle_runs w caller stage gm cm) by assumption.
  cbn [fst snd]. open_world w. repeat split.
Qed.

(** The scenario of the specification: 1,000,000,000 bytes at the start,
    1,500,000,000 at the end, and a peak of 1,800,000,000 in between. *)
Lemma start_then_stop_snapshot_witness :
  let prog := start "train" 0 1000000000 ;;
              peak_monitor_function (map Sample [1200000000; 1800000000; 1500000000]) ;;
              stop "train" 0 0 1500000000 in
  cpu (self (run prog (fresh false))) =
    Some (<[Some "train"%string := mkSnapshot 1000000000 1500000000 500000000 300000000]> ∅).
Proof.
  intros prog.
  pose proof (start_then_stop_snapshot (fresh false) "train" "train" ∅ ∅
                0 1000000000 [1200000000; 1800000000; 1500000000] 0 0 1500000000
                eq_refl eq_refl eq_refl eq_refl eq_refl eq_refl) as (_ & H & _).
  exact H.
Defined.

End Snapshots.

Section Gates.

(** C5. While stage [s1] is open, [stop(s2)] for another stage [s2] returns
    at its gate: nothing is stored, nothing is read from the collaborators,
    and [s1] stays the open stage (the whole state is as before). *)
Theorem stop_other_stage_noop w (s1 s2 : string) (a m r : Z) :
  cur_stage (self w) = Some (Some s1) →
  s2 ≠ s1 →
  stop s2 a m r w = (Ok tt, w).
Proof.
  intros Hcur Hne. apply (stop_gated w s2 (Some s1)); [assumption|].
  cbn. apply bool_decide_eq_true_2. congruence.
Qed.

Lemma stop_other_stage_noop_witness :
  let w := run (start "train" 7 70) (fresh false) in
  cur_stage (self w) = Some (Some "train"%string) ∧
  stop "eval" 8 9 80 w = (Ok tt, w).
Proof.
  intros w. split; [reflexivity|].
  apply (stop_other_stage_noop w "train" "eval" 8 9 80); [reflexivity|discriminate].
Defined.

(** C2 (the code does otherwise).  With no stage open, [stop] does not
    return at its gate.  On a tracker that never started it runs the
    collaborators, clears the sampling flag and raises AttributeError at
    the first begin value; after a completed cycle it stores a snapshot
    under the key [None] in both dictionaries. *)
Theorem stop_when_idle_is_not_noop (stage : string) (a m r : Z) :
  (stop stage a m r (fresh false) =
     (Raise (AttributeError "gpu_memory_used_at_start"),
      mkWorld (set_gpu_memory_used_peak m
                 (set_gpu_memory_used_now a
                    (set_peak_monitoring false (init false))))
              {[ 0%nat := ∅ ]}
              [EvGcCollect; EvCudaEmptyCache; EvCudaMemoryAllocated a;
               EvCudaMaxMemoryAllocated m])) ∧
  (let idle := run (start "train" 10 100 ;;
                    peak_monitor_function [Sample 180] ;;
                    stop "train" 15 20 150) (fresh false) in
   cur_stage (self idle) = Some None ∧
   outcome (stop stage a m r) idle = Ok tt ∧
   cpu (self (run (stop stage a m r) idle)) =
     Some (<[None := mkSnapshot 100 r (r - 100) (Z.max 0 (180 - r))]>
             (<[Some "train"%string := mkSnapshot 100 150 50 30]> ∅)) ∧
   gpu (self (run (stop stage a m r) idle)) =
     Some (<[None := mkSnapshot 10 a (a - 10) (Z.max 0 (m - a))]>
             (<[Some "train"%string := mkSnapshot 10 15 5 5]> ∅))).
Proof.
  split; [reflexivity|].
  intros idle. unfold idle, run, outcome.
  change [Sample 180] with (map Sample [180]).
  rewrite (cycle_runs (fresh false) "train" "train" ∅ ∅ 10 100 [180] 15 20 150)
    by reflexivity.
  cbn [snd].
  erewrite stop_runs with (cur := None); [|reflexivity..].
  repeat split.
Qed.

(** C3 (the code does otherwise).  A tracker built with
    [skip_memory_metrics=True] has none of the tracking attributes;
    [start], [update_metrics] and [stop_and_update_metrics] return at once
    and change nothing, but [stop] has no such gate and raises
    AttributeError when it reads [self.cur_stage]. *)
Theorem skipped_tracker_methods h lg (caller stage : string) (l : nat)
    (a m r : Z) (metrics : option nat) :
  let w := mkWorld (init true) h lg in
  (gpu (init true) = None ∧ cpu (init true) = None ∧
   cur_stage (init true) = None ∧ init_reported (init true) = None ∧
   process (init true) = None) ∧
  start caller a r w = (Ok tt, w) ∧
  update_metrics stage l w = (Ok tt, w) ∧
  stop_and_update_metrics caller a m r metrics w = (Ok tt, w) ∧
  stop stage a m r w = (Raise (AttributeError "cur_stage"), w).
Proof. repeat split. Qed.

End Gates.

Section DoubleStart.

(** C4, as stated, fails: a second [start()] for the same stage takes the
    begin readings again (100 becomes 200, 10 becomes 20), resets the
    accelerator's peak statistics again and starts a second sampler; even
    with equal readings the second call repeats all collaborator calls. *)
Lemma start_twice_differs :
  let once := run (start "train" 10 100) (fresh false) in
  let twice := run (start "train" 10 100 ;; start "train" 20 200) (fresh false) in
  let same := run (start "train" 10 100 ;; start "train" 10 100) (fresh false) in
  (cpu_memory_used_at_start (self once) = Some 100 ∧
   gpu_memory_used_at_start (self once) = Some 10) ∧
  (cpu_memory_used_at_start (self twice) = Some 200 ∧
   gpu_memory_used_at_start (self twice) = Some 20) ∧
  self twice ≠ self once ∧
  log once = start_events 10 100 ∧
  log twice = start_events 10 100 ++ start_events 20 200 ∧
  log same = start_events 10 100 ++ start_events 10 100 ∧
  same ≠ once.
Proof.
  cbv zeta. split; [split; vm_compute; reflexivity|].
  split; [split; vm_compute; reflexivity|].
  split.
  { intros H. apply (f_equal cpu_memory_used_at_start) in H.
    vm_compute in H. discriminate H. }
  split; [vm_compute; reflexivity|].
  split; [vm_compute; reflexivity|].
  split; [vm_compute; reflexivity|].
  intros H. apply (f_equal (fun w => length (log w))) in H.
  vm_compute in H. discriminate H.
Qed.

(** C4, amended.  A second [start()] for the stage that is already open is
    not gated: the call returns normally, the stage stays open, and the
    tracker ends in the state a single [start()] taking the second call's
    readings would leave, so the begin values are those of the second call;
    the collaborator calls of [start] (collection, reset of the peak
    statistics, cache clearing, the two readings, the launch of a sampler)
    are made once per call. *)
Theorem start_twice_restarts w caller stage cur (a1 r1 a2 r2 : Z) :
  skip_memory_metrics (self w) = false →
  process (self w) = Some tt →
  cur_stage (self w) = Some cur →
  other_stage_open cur stage = false →
  stages !! caller = Some stage →
  let twice := start caller a1 r1 ;; start caller a2 r2 in
  outcome twice w = Ok tt ∧
  self (run twice w) = self (run (start caller a2 r2) w) ∧
  cur_stage (self (run twice w)) = Some (Some stage) ∧
  gpu_memory_used_at_start (self (run twice w)) = Some a2 ∧
  cpu_memory_used_at_start (self (run twice w)) = Some r2 ∧
  new_events twice w = start_events a1 r1 ++ start_events a2 r2.
Proof.
  intros Hskip Hproc Hcur Hopen Hst twice.
  assert (Htwice : twice w =
    (Ok tt,
     mkWorld (set_peak_monitoring true
                (set_cpu_memory_used_at_start r2
                   (set_gpu_memory_used_at_start a2
                      (set_cur_stage (Some stage) (self w)))))
             (heap w) (log w ++ start_events a1 r1 ++ start_events a2 r2))).
  { unfold twice, bind.
    rewrite (start_runs w caller stage cur a1 r1) by assumption.
    erewrite (start_runs _ caller stage (Some stage) a2 r2);
      [|open_world w; try reflexivity; try assumption..].
    - open_world w. cbn [self heap log]. now rewrite <- app_assoc.
    - cbn. now rewrite bool_decide_eq_false_2 by auto. }
  unfold new_events, outcome, run. rewrite Htwice.
  rewrite (start_runs w caller stage cur a2 r2) by assumption.
  cbn [fst snd self heap log]. rewrite drop_app_length.
  open_world w. repeat split.
Qed.

Lemma start_twice_restarts_witness :
  let twice := start "train" 10 100 ;; start "train" 20 200 in
  cpu_memory_used_at_start (self (run twice (fresh false))) = Some 200 ∧
  new_events twice (fresh false) = start_events 10 100 ++ start_events 20 200.
Proof.
  intros twice.
  pose proof (start_twice_restarts (fresh false) "train" "train" None 10 100 20 200
                eq_refl eq_refl eq_refl eq_refl eq_refl) as (_ & _ & _ & _ & H1 & H2).
  split; [exact H1 | exact H2].
Defined.

End DoubleStart.

Section StageResolver.

Lemma stages_none caller :
  stages !! caller = None ↔
  caller ∉ ["__init__"; "train"; "evaluate"; "predict"; "test_MemoryTracker"]%string.
Proof.
  unfold stages. rewrite <- not_elem_of_list_to_map. reflexivity.
Qed.

(** C7. [derive_stage] returns the stage the table binds to the caller's
    name, for each of the five names of the table, and fails with
    AssertionError exactly when the caller's name is none of the five; the
    tracker is left as it was in both cases. *)
Theorem derive_stage_table (caller : string) w :
  derive_stage "__init__" w = (Ok "init"%string, w) ∧
  derive_stage "train" w = (Ok "train"%string, w) ∧
  derive_stage "evaluate" w = (Ok "eval"%string, w) ∧
  derive_stage "predict" w = (Ok "test"%string, w) ∧
  derive_stage "test_MemoryTracker" w = (Ok "init"%string, w) ∧
  (derive_stage caller w = (Raise AssertionError, w) ↔
   caller ∉ ["__init__"; "train"; "evaluate"; "predict"; "test_MemoryTracker"]%string) ∧
  (caller ∈ ["__init__"; "train"; "evaluate"; "predict"; "test_MemoryTracker"]%string ↔
   ∃ stage, stages !! caller = Some stage ∧ derive_stage caller w = (Ok stage, w)).
Proof.
  repeat split; try reflexivity.
  - intros H. apply stages_none. unfold derive_stage in H.
    destruct (stages !! caller); [discriminate H | reflexivity].
  - intros H. apply stages_none in H. unfold derive_stage. now rewrite H.
  - intros H. destruct (stages !! caller) as [stage|] eqn:E.
    + exists stage. split; [reflexivity|]. now apply derive_stage_known.
    + apply stages_none in E. contradiction.
  - intros (stage & H & _).
    destruct (decide (caller ∈ ["__init__"; "train"; "evaluate"; "predict";
                                "test_MemoryTracker"]%string)) as [|Hn]; [assumption|].
    apply stages_none in Hn. congruence.
Qed.

End StageResolver.

Section SamplerLoop.

Lemma readings_rss rs : readings (map EvRss rs) = rs.
Proof. induction rs as [|r rs IH]; [reflexivity|]. cbn. f_equal. exact IH. Qed.

Lemma loop_result_trips sch : ∀ flag peak,
  let trips := until_flag_false (observations sch flag) in
  let '(ex, _, p, rs) := loop_result sch flag peak in
  ex = existsb (fun o => negb o.2) trips ∧
  rs = map fst trips ∧
  p = fold_right Z.max peak rs.
Proof.
  induction sch as [|[r|b] sch IH]; intros flag peak; cbn.
  - repeat split.
  - destruct flag; cbn.
    + specialize (IH true (Z.max r peak)). cbn in IH.
      destruct (loop_result sch true (Z.max r peak)) as [[[ex f] p] rs].
      destruct IH as (-> & -> & ->). repeat split.
      cbn. now rewrite fold_max_shift.
    + repeat split.
  - apply IH.
Qed.

(** The sampler's function under a schedule: its result, the readings it
    logs and the peak it leaves. *)
Lemma peak_monitor_function_runs sch w flag :
  process (self w) = Some tt →
  peak_monitoring (self w) = Some flag →
  let trips := until_flag_false (observations sch flag) in
  outcome (peak_monitor_function sch) w = Ok (existsb (fun o => negb o.2) trips) ∧
  sampler_taken sch w = map fst trips ∧
  sampler_peak sch w = Some (fold_right Z.max (-1) (map fst trips)).
Proof.
  intros Hp Hf trips.
  unfold sampler_taken, sampler_peak, new_events, outcome, run.
  unfold peak_monitor_function, bind, setattr.
  erewrite peak_monitor_loop_runs with (flag := flag) (peak := -1);
    [|open_world w; reflexivity..].
  pose proof (loop_result_trips sch flag (-1)) as H. cbv zeta in H.
  destruct (loop_result sch flag (-1)) as [[[ex f] p] rs].
  destruct H as (-> & -> & ->). fold trips.
  cbn [fst snd self heap log]. rewrite drop_app_length, readings_rss.
  open_world w. repeat split.
Qed.

Lemma observations_app sch1 : ∀ sch2 flag,
  ∃ flag', observations (sch1 ++ sch2) flag =
           observations sch1 flag ++ observations sch2 flag'.
Proof.
  induction sch1 as [|[r|b] sch1 IH]; intros sch2 flag; cbn.
  - now exists flag.
  - destruct (IH sch2 flag) as [f' ->]. now exists f'.
  - apply IH.
Qed.

Lemma until_flag_false_app obs1 obs2 :
  ∃ rest, until_flag_false (obs1 ++ obs2) = until_flag_false obs1 ++ rest ∧
          (rest = [] ∨ rest = until_flag_false obs2).
Proof.
  induction obs1 as [|[r f] obs1 IH]; cbn.
  - exists (until_flag_false obs2). auto.
  - destruct f.
    + destruct IH as (rest & -> & Hrest). exists rest. auto.
    + exists []. rewrite app_nil_r. auto.
Qed.

Lemma observations_flag_false sch :
  flag_stays_false sch →
  Forall (fun o => o.2 = false) (observations sch false).
Proof.
  induction 1 as [|[r|b] sch Ht _ IH]; cbn.
  - constructor.
  - constructor; [reflexivity | assumption].
  - destruct b; [congruence | assumption].
Qed.

Lemma until_flag_false_short obs :
  Forall (fun o => o.2 = false) obs → (length (until_flag_false obs) ≤ 1)%nat.
Proof.
  destruct 1 as [|[r f] obs Hf _]; cbn; [lia|].
  cbn in Hf. subst f. cbn. lia.
Qed.

Lemma fold_max_ge rs : ∀ p, p ≤ fold_right Z.max p rs.
Proof. induction rs as [|r rs IH]; intros p; cbn; [lia|]. specialize (IH p). lia. Qed.

Lemma fold_max_app rs1 rs2 p :
  fold_right Z.max p rs1 ≤ fold_right Z.max p (rs1 ++ rs2).
Proof.
  induction rs1 as [|r rs1 IH]; cbn; [apply fold_max_ge | lia].
Qed.

Lemma fold_max_upper rs p : ∀ r, r ∈ rs → r ≤ fold_right Z.max p rs.
Proof.
  induction rs as [|x rs IH]; intros r Hr; [inversion Hr|].
  cbn. apply elem_of_cons in Hr as [->|Hr]; [lia|]. specialize (IH r Hr). lia.
Qed.

Lemma fold_max_attained rs p :
  rs ≠ [] → Forall (fun r => p ≤ r) rs → fold_right Z.max p rs ∈ rs.
Proof.
  induction rs as [|x rs IH]; intros Hne Hall; [congruence|].
  inversion Hall as [|? ? Hx Hrs]; subst. cbn.
  destruct rs as [|y rs'].
  - cbn. rewrite Z.max_l by lia. left.
  - destruct (Z.max_spec x (fold_right Z.max p (y :: rs'))) as [[_ ->]|[_ ->]].
    + right. now apply IH.
    + left.
Qed.

End SamplerLoop.

Section SamplerClaim.

Lemma exited_iff obs :
  existsb (fun o : Z * bool => negb o.2) (until_flag_false obs) = true ↔
  Exists (fun o => o.2 = false) obs.
Proof.
  induction obs as [|[r f] obs IH]; cbn.
  - split; [discriminate | inversion 1].
  - destruct f; cbn.
    + rewrite IH. split; [now right|].
      inversion 1 as [? ? Hf|]; subst; [discriminate Hf | assumption].
    + split; [now left | reflexivity].
Qed.

Lemma observations_sample sch : ∀ flag r,
  Sample r ∈ sch → observations sch flag ≠ [].
Proof.
  induction sch as [|[x|b] sch IH]; intros flag r Hin; cbn.
  - inversion Hin.
  - discriminate.
  - apply elem_of_cons in Hin as [Heq|Hin]; [discriminate Heq|]. now apply (IH b r).
Qed.

Lemma until_flag_false_nil obs : until_flag_false obs = [] → obs = [].
Proof. destruct obs as [|[r f] obs]; [reflexivity | discriminate]. Qed.

Lemma peak_monitor_body_runs r w flag peak :
  process (self w) = Some tt →
  peak_monitoring (self w) = Some flag →
  cpu_memory_used_peak (self w) = Some peak →
  peak_monitor_body r w =
    (Ok (negb flag),
     mkWorld (set_cpu_memory_used_peak (Z.max r peak) (self w))
             (heap w) (log w ++ [EvRss r])).
Proof. intros Hp Hf Hpk. open_world w. now unfold_py. Qed.

(** C9. The sampler under any schedule of its trips and of the owner's
    writes to the flag, started on a tracker whose flag is set.
    - One trip takes one reading, never lowers the peak, and breaks the loop
      exactly when its check finds the flag false.
    - The readings taken are those of the trips up to and including the
      first whose check finds the flag false.
    - The function returns exactly when some check finds the flag false;
      then at least one reading was taken, the peak bounds all readings
      taken and, readings being byte counts, is one of them.
    - Along a longer schedule the peak is no lower.
    - A schedule with a trip takes a reading, whatever the flag.
    - Once the owner has cleared the flag for good, at most one more
      reading is taken. *)
Theorem sampler_loop_peak (sch : list Tick) w flag :
  process (self w) = Some tt →
  peak_monitoring (self w) = Some flag →
  let trips := until_flag_false (observations sch flag) in
  let taken := sampler_taken sch w in
  (∀ r peak f w', process (self w') = Some tt →
     peak_monitoring (self w') = Some f →
     cpu_memory_used_peak (self w') = Some peak →
     outcome (peak_monitor_body r) w' = Ok (negb f) ∧
     new_events (peak_monitor_body r) w' = [EvRss r] ∧
     cpu_memory_used_peak (self (run (peak_monitor_body r) w')) = Some (Z.max r peak) ∧
     peak ≤ Z.max r peak) ∧
  taken = map fst trips ∧
  (∃ exited peak,
     outcome (peak_monitor_function sch) w = Ok exited ∧
     sampler_peak sch w = Some peak ∧
     (exited = true ↔ Exists (fun o => o.2 = false) (observations sch flag)) ∧
     (∀ r, r ∈ taken → r ≤ peak) ∧
     (exited = true → taken ≠ [] ∧ (Forall (fun r => 0 ≤ r) taken → peak ∈ taken))) ∧
  (∀ sch', ∃ p p',
     sampler_peak sch w = Some p ∧ sampler_peak (sch ++ sch') w = Some p' ∧ p ≤ p') ∧
  ((∃ r, Sample r ∈ sch) → taken ≠ []) ∧
  (∀ pre post, sch = pre ++ OwnerSets false :: post → flag_stays_false post →
     (length taken ≤ length (sampler_taken pre w) + 1)%nat).
Proof.
  intros Hp Hf trips taken.
  destruct (peak_monitor_function_runs sch w flag Hp Hf) as (Hout & Htaken & Hpeak).
  fold trips in Hout, Htaken, Hpeak. fold taken in Htaken.
  split; [|split; [exact Htaken|split; [|split; [|split]]]].
  - intros r peak f w' Hp' Hf' Hpk'.
    unfold outcome, new_events, run.
    rewrite (peak_monitor_body_runs r w' f peak) by assumption.
    cbn [fst snd self heap log]. rewrite drop_app_length.
    open_world w'. repeat split. lia.
  - exists (existsb (fun o => negb o.2) trips), (fold_right Z.max (-1) taken).
    split; [exact Hout|]. split; [now rewrite Htaken|].
    split; [apply exited_iff|]. split.
    + intros r Hr. now apply fold_max_upper.
    + intros Hex.
      assert (Hne : taken ≠ []).
      { intros Hnil. rewrite Htaken in Hnil.
        apply fmap_nil_inv in Hnil. rewrite Hnil in Hex. discriminate Hex. }
      split; [exact Hne|].
      intros Hall. apply fold_max_attained; [exact Hne|].
      eapply Forall_impl; [exact Hall|]. cbn. intros; lia.
  - intros sch'.
    destruct (peak_monitor_function_runs (sch ++ sch') w flag Hp Hf) as (_ & _ & Hpeak').
    destruct (observations_app sch sch' flag) as [f' Hobs]. rewrite Hobs in Hpeak'.
    destruct (until_flag_false_app (observations sch flag) (observations sch' f'))
      as (rest & Hrest & _).
    rewrite Hrest, map_app in Hpeak'.
    eexists _, _. split; [exact Hpeak|]. split; [exact Hpeak'|].
    apply fold_max_app.
  - intros [r Hr] Hnil. rewrite Htaken in Hnil. apply fmap_nil_inv in Hnil.
    apply until_flag_false_nil in Hnil. now apply (observations_sample sch flag r).
  - intros pre post -> Hpost.
    destruct (peak_monitor_function_runs pre w flag Hp Hf) as (_ & Hpre & _).
    rewrite Htaken, Hpre. unfold trips.
    destruct (observations_app pre (OwnerSets false :: post) flag) as [f' ->].
    cbn [observations].
    destruct (until_flag_false_app (observations pre flag) (observations post false))
      as (rest & -> & [-> | ->]).
    + rewrite app_nil_r. lia.
    + rewrite map_app, length_app, !length_map.
      pose proof (until_flag_false_short _ (observations_flag_false post Hpost)). lia.
Qed.

(** The owner starts a stage, the sampler makes two trips, the owner clears
    the flag, and the sampler makes its last trip. *)
Lemma sampler_loop_peak_witness :
  let w := run (start "train" 0 100) (fresh false) in
  let sch := [Sample 120; Sample 180; OwnerSets false; Sample 150; Sample 999] in
  sampler_taken sch w = [120; 180; 150] ∧
  outcome (peak_monitor_function sch) w = Ok true ∧
  sampler_peak sch w = Some 180.
Proof.
  intros w sch.
  pose proof (sampler_loop_peak sch w true eq_refl eq_refl) as (_ & H & _).
  split; [exact H|]. split; reflexivity.
Defined.

End SamplerClaim.

Section UpdateMetrics.

Lemma wrote_nil w : wrote [] w = w.
Proof. destruct w. unfold wrote. cbn. now rewrite app_nil_r. Qed.

Lemma wrote_app evs1 evs2 w : wrote evs2 (wrote evs1 w) = wrote (evs1 ++ evs2) w.
Proof.
  unfold wrote, replay. cbn. now rewrite foldl_app, app_assoc.
Qed.

Lemma snapshot_get_alloc s : snapshot_get "alloc" s = Some (snap_alloc s).
Proof. reflexivity. Qed.

Lemma snapshot_get_peaked s : snapshot_get "peaked" s = Some (snap_peaked s).
Proof. reflexivity. Qed.

Lemma snapshot_get_begin s : snapshot_get "begin" s = Some (snap_begin s).
Proof. reflexivity. Qed.

Lemma snapshot_get_kind k s : k ∈ kinds → is_Some (snapshot_get k s).
Proof.
  unfold kinds. rewrite !elem_of_cons, elem_of_nil.
  intros [->|[->|[]]]; eexists; reflexivity.
Qed.

Lemma write_deltas_runs l stage k w cm gm :
  cpu (self w) = Some cm →
  gpu (self w) = Some gm →
  write_deltas l stage k w =
    (Ok tt, wrote (delta_writes l cm Cpu stage k ++ delta_writes l gm Gpu stage k) w).
Proof.
  intros Hc Hg. open_world w. unfold_py. unfold delta_writes, wrote.
  destruct (cm !! Some stage) as [cs|]; [destruct (snapshot_get k cs)|];
    (destruct (gm !! Some stage) as [gs|]; [destruct (snapshot_get k gs)|]);
    cbn; rewrite ?app_nil_r, <- ?app_assoc; reflexivity.
Qed.

Lemma stage_loop_runs l stage w cm gm :
  cpu (self w) = Some cm →
  gpu (self w) = Some gm →
  for_each ["alloc"; "peaked"]%string (fun k => write_deltas l stage k) w =
    (Ok tt, wrote (stage_writes l cm gm stage) w).
Proof.
  intros Hc Hg. cbn [for_each]. unfold bind at 1.
  rewrite (write_deltas_runs l stage "alloc" w cm gm) by assumption.
  unfold bind at 1.
  rewrite (write_deltas_runs l stage "peaked" _ cm gm) by assumption.
  unfold ret. rewrite wrote_app. unfold stage_writes. now rewrite <- !app_assoc.
Qed.

Lemma write_before_init_runs l w cm gm reported stage :
  cpu (self w) = Some cm →
  gpu (self w) = Some gm →
  write_before_init l (emitted reported stage) w =
    ((before_init_result l cm gm reported stage).1,
     wrote (before_init_result l cm gm reported stage).2 w).
Proof.
  intros Hc Hg. unfold before_init_result, emitted.
  assert (Hfirst : write_before_init l (if reported then [stage] else ["init"; stage]%string) w =
                   write_before_init l [if reported then stage else "init"%string] w).
  { now destruct reported. }
  rewrite Hfirst. clear Hfirst.
  assert (Hdec : negb reported || bool_decide (stage = "init"%string) =
                 bool_decide ((if reported then stage else "init"%string) = "init"%string)).
  { now destruct reported. }
  rewrite Hdec. clear Hdec. open_world w. unfold_py.
  destruct (bool_decide _); [|cbn; unfold wrote; cbn; now rewrite app_nil_r].
  destruct (cm !! Some "init"%string) as [ci|];
    [|cbn; unfold wrote; cbn; now rewrite app_nil_r].
  rewrite snapshot_get_begin.
  destruct (gm !! Some "init"%string) as [gi|]; cbn.
  - rewrite snapshot_get_begin. unfold wrote. cbn. now rewrite <- app_assoc.
  - reflexivity.
Qed.

Lemma for_each_cons {A} (x : A) xs body :
  for_each (x :: xs) body = (body x ;; for_each xs body).
Proof. reflexivity. Qed.

Lemma for_each_nil {A} (body : A → M unit) : for_each [] body = ret tt.
Proof. reflexivity. Qed.

Lemma update_metrics_runs l stage w cur reported cm gm :
  skip_memory_metrics (self w) = false →
  cur_stage (self w) = Some cur →
  other_stage_open cur stage = false →
  init_reported (self w) = Some reported →
  cpu (self w) = Some cm →
  gpu (self w) = Some gm →
  update_metrics stage l w =
    ((before_init_result l cm gm reported stage).1,
     wrote (update_writes l cm gm reported stage)
           (mkWorld (set_init_reported true (self w)) (heap w) (log w))).
Proof.
  intros Hskip Hcur Hopen Hrep Hc Hg. open_world w.
  unfold update_metrics. cbv beta iota delta [self skip_memory_metrics].
  unfold bind at 1. unfold getattr at 1. cbv beta iota delta [self cur_stage].
  rewrite Hopen. unfold update_writes.
  destruct reported.
  - unfold bind at 1. unfold stages_to_emit, bind at 1, getattr at 1.
    cbv beta iota delta [self init_reported negb ret].
    unfold bind at 1. rewrite (for_each_cons stage []), for_each_nil.
    unfold bind at 1.
    erewrite stage_loop_runs by reflexivity.
    unfold ret.
    erewrite (write_before_init_runs l _ cm gm true stage) by reflexivity.
    rewrite wrote_app. cbn [emitted map concat]. rewrite app_nil_r. reflexivity.
  - unfold bind at 1. unfold stages_to_emit, bind at 1, getattr at 1.
    cbv beta iota delta [self init_reported negb ret].
    unfold bind at 1. unfold setattr at 1.
    unfold bind at 1.
    rewrite (for_each_cons "init"%string [stage]), (for_each_cons stage []), for_each_nil.
    unfold bind at 1.
    erewrite stage_loop_runs by reflexivity.
    unfold bind at 1.
    erewrite stage_loop_runs by reflexivity.
    unfold ret.
    erewrite (write_before_init_runs l _ cm gm false stage) by reflexivity.
    rewrite !wrote_app. cbn [emitted map concat]. rewrite app_nil_r, <- !app_assoc.
    reflexivity.
Qed.

Lemma update_metrics_gated l stage w cur :
  skip_memory_metrics (self w) = false →
  cur_stage (self w) = Some cur →
  other_stage_open cur stage = true →
  update_metrics stage l w = (Ok tt, w).
Proof.
  intros Hskip Hcur Hopen. open_world w. unfold_py. now rewrite Hopen.
Qed.

End UpdateMetrics.

Section MetricKeys.

Lemma list_ascii_app s1 s2 :
  String.list_ascii_of_string (s1 +:+ s2) =
  String.list_ascii_of_string s1 ++ String.list_ascii_of_string s2.
Proof.
  induction s1 as [|c s1 IH]; [reflexivity|].
  change (c :: String.list_ascii_of_string (s1 +:+ s2) =
          c :: (String.list_ascii_of_string s1 ++ String.list_ascii_of_string s2)).
  now rewrite IH.
Qed.

Lemma length_list_ascii s : length (String.list_ascii_of_string s) = String.length s.
Proof.
  induction s as [|c s IH]; [reflexivity|].
  change (S (length (String.list_ascii_of_string s)) = S (String.length s)).
  now rewrite IH.
Qed.

Lemma list_ascii_inj s1 s2 :
  String.list_ascii_of_string s1 = String.list_ascii_of_string s2 → s1 = s2.
Proof.
  intros H. rewrite <- (String.string_of_list_ascii_of_string s1),
    <- (String.string_of_list_ascii_of_string s2). now rewrite H.
Qed.

Lemma tail_chars_app n s t :
  (n ≤ String.length t)%nat → tail_chars n (s +:+ t) = tail_chars n t.
Proof.
  intros Hn. unfold tail_chars. rewrite list_ascii_app, rev_app_distr.
  apply take_app_le. now rewrite length_rev, length_list_ascii.
Qed.

(** Two strings that end differently are different. *)
Lemma suffix_clash n s1 s2 t1 t2 :
  (n ≤ String.length t1)%nat → (n ≤ String.length t2)%nat →
  s1 +:+ t1 = s2 +:+ t2 → tail_chars n t1 = tail_chars n t2.
Proof.
  intros H1 H2 H. rewrite <- (tail_chars_app n s1 t1), <- (tail_chars_app n s2 t2) by assumption.
  now rewrite H.
Qed.

Lemma suffix_inj s1 s2 t : s1 +:+ t = s2 +:+ t → s1 = s2.
Proof.
  intros H. apply list_ascii_inj. apply (f_equal String.list_ascii_of_string) in H.
  rewrite !list_ascii_app in H. now apply app_inv_tail in H.
Qed.

Lemma elem_of_kinds k : k ∈ kinds ↔ k = "alloc"%string ∨ k = "peaked"%string.
Proof. unfold kinds. rewrite !elem_of_cons, elem_of_nil. tauto. Qed.

Ltac clash n H :=
  exfalso; apply (suffix_clash n) in H;
  [vm_compute in H; discriminate H | vm_compute; lia | vm_compute; lia].

(** The key of a delta names its domain, its stage and its kind. *)
Lemma delta_key_inj d1 d2 e1 e2 k1 k2 :
  k1 ∈ kinds → k2 ∈ kinds →
  delta_key d1 e1 k1 = delta_key d2 e2 k2 → d1 = d2 ∧ e1 = e2 ∧ k1 = k2.
Proof.
  rewrite !elem_of_kinds. intros [-> | ->] [-> | ->] H;
    destruct d1, d2; cbn in H; unfold cpu_key, gpu_key in H; cbn in H;
    first [ apply suffix_inj in H; subst; now repeat split
          | clash 7%nat H | clash 15%nat H | clash 16%nat H ].
Qed.

Lemma delta_key_not_before_init d d' e k :
  k ∈ kinds → delta_key d e k ≠ before_init_key d'.
Proof.
  rewrite elem_of_kinds. intros Hk H.
  change (before_init_key d') with ("" +:+ before_init_key d') in H.
  destruct Hk as [-> | ->]; destruct d, d';
    unfold delta_key, cpu_key, gpu_key in H; clash 1%nat H.
Qed.

Lemma before_init_key_inj d d' : before_init_key d = before_init_key d' → d = d'.
Proof. destruct d, d'; cbn; intros H; first [reflexivity | discriminate H]. Qed.

End MetricKeys.

Section Replay.

Lemma replay_lookup evs : ∀ h l,
  replay evs h !! l = dict_after evs l <$> h !! l.
Proof.
  induction evs as [|e evs IH]; intros h l.
  - cbn. now destruct (h !! l).
  - change (replay (e :: evs) h) with
      (replay evs (match e with
                   | EvSetItem l' key v => alter (insert key v) l' h
                   | _ => h
                   end)).
    rewrite IH.
    destruct e as [| | | | | | |l' key v]; try reflexivity.
    rewrite lookup_alter. unfold dict_after at 2. cbn [foldl].
    destruct (decide (l' = l)) as [->|Hne]; now destruct (h !! l).
Qed.

Lemma dom_replay evs : ∀ h, dom (replay evs h) = dom h.
Proof.
  induction evs as [|e evs IH]; intros h; [reflexivity|].
  unfold replay in *. cbn [foldl]. rewrite IH.
  destruct e; try reflexivity. apply dom_alter_L.
Qed.

Lemma dict_after_unwritten evs l key : ∀ m,
  (∀ v, EvSetItem l key v ∉ evs) → dict_after evs l m !! key = m !! key.
Proof.
  induction evs as [|e evs IH]; intros m Hno; [reflexivity|].
  unfold dict_after in *. cbn [foldl].
  rewrite IH by (intros v Hin; apply (Hno v); now right).
  destruct e as [| | | | | | |l' key' v]; try reflexivity.
  destruct (decide (l' = l)) as [->|]; [|reflexivity].
  apply lookup_insert_ne. intros ->. apply (Hno v). left.
Qed.

Lemma dict_after_written evs l key v : ∀ m,
  (m !! key = Some v ∨ ∃ v', EvSetItem l key v' ∈ evs) →
  (∀ v', EvSetItem l key v' ∈ evs → v' = v) →
  dict_after evs l m !! key = Some v.
Proof.
  induction evs as [|e evs IH]; intros m Hsome Hall.
  - destruct Hsome as [H|[v' H]]; [exact H | inversion H].
  - unfold dict_after in *. cbn [foldl].
    apply IH; [|intros v' Hin; apply Hall; now right].
    destruct e as [| | | | | | |l' key' v0];
      try (destruct Hsome as [H|[v' H]];
           [now left | apply elem_of_cons in H as [H|H]; [discriminate H | right; eauto]]).
    destruct (decide (l' = l)) as [->|Hne].
    + destruct (decide (key' = key)) as [->|Hk].
      * left. rewrite lookup_insert_eq. f_equal. apply Hall. left.
      * rewrite lookup_insert_ne by assumption.
        destruct Hsome as [H|[v' H]]; [now left|].
        apply elem_of_cons in H as [H|H]; [congruence | right; eauto].
    + destruct Hsome as [H|[v' H]]; [now left|].
      apply elem_of_cons in H as [H|H]; [congruence | right; eauto].
Qed.

Lemma dict_after_elsewhere evs l l' : ∀ m,
  l' ≠ l → (∀ l0 key v, EvSetItem l0 key v ∈ evs → l0 = l) →
  dict_after evs l' m = m.
Proof.
  induction evs as [|e evs IH]; intros m Hne Hall; [reflexivity|].
  unfold dict_after in *. cbn [foldl].
  rewrite IH by (auto; intros l0 key v Hin; apply (Hall l0 key v); now right).
  destruct e as [| | | | | | |l0 key v]; try reflexivity.
  rewrite decide_False; [reflexivity|].
  rewrite (Hall l0 key v) by left. congruence.
Qed.

End Replay.

Section UpdateWrites.

Context (l : nat) (cm gm : gmap StageKey Snapshot).

Lemma elem_of_delta_writes ev d stage k :
  ev ∈ delta_writes l (domain_dict cm gm d) d stage k ↔
  ∃ snap v, domain_dict cm gm d !! Some stage = Some snap ∧
            snapshot_get k snap = Some v ∧
            ev = EvSetItem l (delta_key d stage k) v.
Proof.
  unfold delta_writes. split.
  - destruct (domain_dict cm gm d !! Some stage) as [snap|]; [|inversion 1].
    destruct (snapshot_get k snap) as [v|] eqn:Hv; [|inversion 1].
    intros H. apply list_elem_of_singleton in H. eauto.
  - intros (snap & v & -> & -> & ->). left.
Qed.

Lemma elem_of_stage_writes ev stage :
  ev ∈ stage_writes l cm gm stage ↔
  ∃ d k snap v, k ∈ kinds ∧ domain_dict cm gm d !! Some stage = Some snap ∧
                snapshot_get k snap = Some v ∧
                ev = EvSetItem l (delta_key d stage k) v.
Proof.
  unfold stage_writes. rewrite !elem_of_app.
  change (delta_writes l cm Cpu) with (delta_writes l (domain_dict cm gm Cpu) Cpu).
  change (delta_writes l gm Gpu) with (delta_writes l (domain_dict cm gm Gpu) Gpu).
  rewrite !elem_of_delta_writes. split.
  - intros [H|[H|[H|H]]]; destruct H as (snap & v & H1 & H2 & H3).
    + exists Cpu, "alloc"%string, snap, v. rewrite elem_of_kinds. auto.
    + exists Gpu, "alloc"%string, snap, v. rewrite elem_of_kinds. auto.
    + exists Cpu, "peaked"%string, snap, v. rewrite elem_of_kinds. auto.
    + exists Gpu, "peaked"%string, snap, v. rewrite elem_of_kinds. auto.
  - intros (d & k & snap & v & Hk & H1 & H2 & H3).
    apply elem_of_kinds in Hk as [-> | ->]; destruct d; eauto 10.
Qed.

Lemma elem_of_before_init ev reported stage :
  ev ∈ (before_init_result l cm gm reported stage).2 →
  (reported = false ∨ stage = "init"%string) ∧
  ∃ d snap, domain_dict cm gm d !! Some "init"%string = Some snap ∧
            ev = EvSetItem l (before_init_key d) (snap_begin snap).
Proof.
  unfold before_init_result.
  destruct (negb reported || bool_decide (stage = "init"%string)) eqn:Hfirst;
    [|inversion 1].
  assert (reported = false ∨ stage = "init"%string) as Hwhy.
  { apply orb_true_iff in Hfirst as [H|H].
    - left. now destruct reported.
    - right. now apply bool_decide_eq_true_1 in H. }
  destruct (cm !! Some "init"%string) as [ci|] eqn:Hc; [|inversion 1].
  destruct (gm !! Some "init"%string) as [gi|] eqn:Hg; cbn; intros H.
  - apply elem_of_cons in H as [->|H]; [split; [assumption|]; exists Cpu, ci; auto|].
    apply list_elem_of_singleton in H as ->. split; [assumption|]. exists Gpu, gi; auto.
  - apply list_elem_of_singleton in H as ->. split; [assumption|]. exists Cpu, ci; auto.
Qed.

Lemma elem_of_update_writes ev reported stage :
  ev ∈ update_writes l cm gm reported stage ↔
  (∃ d e k snap v, e ∈ emitted reported stage ∧ k ∈ kinds ∧
                   domain_dict cm gm d !! Some e = Some snap ∧
                   snapshot_get k snap = Some v ∧
                   ev = EvSetItem l (delta_key d e k) v) ∨
  ev ∈ (before_init_result l cm gm reported stage).2.
Proof.
  unfold update_writes. rewrite elem_of_app.
  apply or_iff_compat_r.
  rewrite list_elem_of_In, in_concat. split.
  - intros (evs & Hevs & Hev). apply in_map_iff in Hevs as (e & <- & He).
    apply list_elem_of_In, elem_of_stage_writes in Hev as (d & k & snap & v & H).
    apply list_elem_of_In in He.
    exists d, e, k, snap, v. tauto.
  - intros (d & e & k & snap & v & He & H).
    exists (stage_writes l cm gm e). split.
    + apply in_map_iff. exists e. split; [reflexivity|]. now apply list_elem_of_In.
    + apply list_elem_of_In, elem_of_stage_writes. exists d, k, snap, v. exact H.
Qed.

End UpdateWrites.

Section MetricsClaims.

Lemma update_metrics_effects l stage w cur reported cm gm :
  skip_memory_metrics (self w) = false →
  cur_stage (self w) = Some cur →
  other_stage_open cur stage = false →
  init_reported (self w) = Some reported →
  cpu (self w) = Some cm →
  gpu (self w) = Some gm →
  outcome (update_metrics stage l) w = (before_init_result l cm gm reported stage).1 ∧
  new_events (update_metrics stage l) w = update_writes l cm gm reported stage ∧
  heap (run (update_metrics stage l) w) =
    replay (update_writes l cm gm reported stage) (heap w) ∧
  self (run (update_metrics stage l) w) = set_init_reported true (self w).
Proof.
  intros Hskip Hcur Hopen Hrep Hc Hg.
  unfold outcome, new_events, run.
  rewrite (update_metrics_runs l stage w cur reported cm gm) by assumption.
  unfold wrote. cbn [fst snd self heap log]. now rewrite drop_app_length.
Qed.

Lemma before_init_outcome l cm gm reported stage :
  (before_init_result l cm gm reported stage).1 = Ok tt ∨
  (before_init_result l cm gm reported stage).1 = Raise (KeyError "init").
Proof.
  unfold before_init_result.
  destruct (negb reported || bool_decide (stage = "init"%string)); [|now left].
  destruct (cm !! Some "init"%string); [|now right].
  destruct (gm !! Some "init"%string); [now left | now right].
Qed.

(** The writes of one [update_metrics] to a delta key of an emitted stage
    come from that stage's snapshot in that domain. *)
Lemma delta_write_origin l cm gm reported stage d e k v :
  k ∈ kinds →
  EvSetItem l (delta_key d e k) v ∈ update_writes l cm gm reported stage →
  e ∈ emitted reported stage ∧
  ∃ snap, domain_dict cm gm d !! Some e = Some snap ∧ snapshot_get k snap = Some v.
Proof.
  intros Hk Hin. apply elem_of_update_writes in Hin as [Hin|Hin].
  - destruct Hin as (d' & e' & k' & snap & v' & He & Hk' & Hsnap & Hv & Heq).
    injection Heq as Hkey ->.
    apply delta_key_inj in Hkey as (-> & -> & ->); [eauto | assumption..].
  - apply elem_of_before_init in Hin as (_ & d' & snap & _ & Heq).
    injection Heq as Hkey _. now apply delta_key_not_before_init in Hkey.
Qed.

(** The entry of a delta key of an emitted stage after the writes. *)
Lemma written_delta_value l cm gm reported stage d e k snap m :
  e ∈ emitted reported stage → k ∈ kinds →
  domain_dict cm gm d !! Some e = Some snap →
  (∃ v, EvSetItem l (delta_key d e k) v ∈ update_writes l cm gm reported stage) ∧
  dict_after (update_writes l cm gm reported stage) l m !! delta_key d e k =
    snapshot_get k snap.
Proof.
  intros He Hk Hsnap. destruct (snapshot_get_kind k snap Hk) as [v Hv].
  assert (Hin : EvSetItem l (delta_key d e k) v ∈ update_writes l cm gm reported stage).
  { apply elem_of_update_writes. left. exists d, e, k, snap, v. auto. }
  split; [eauto|]. rewrite Hv. apply dict_after_written; [eauto|].
  intros v' Hin'. apply delta_write_origin in Hin' as (_ & snap' & Hs & Hv'); [|assumption].
  congruence.
Qed.

(** C8. An [update_metrics] that gets past its gates returns [None] or
    raises KeyError, allocates no dictionary and touches none but the
    caller's, which it changes in place: for each emitted stage, domain and
    kind it writes the delta key exactly when the stage has a snapshot in
    that domain, with that snapshot's value; every write is to a delta key
    of an emitted stage or to a [before_init] key; a key that is not
    written keeps its entry. *)
Theorem update_metrics_in_place w stage l m cur reported cm gm :
  skip_memory_metrics (self w) = false →
  cur_stage (self w) = Some cur →
  other_stage_open cur stage = false →
  init_reported (self w) = Some reported →
  cpu (self w) = Some cm →
  gpu (self w) = Some gm →
  heap w !! l = Some m →
  let w' := run (update_metrics stage l) w in
  let evs := new_events (update_metrics stage l) w in
  (outcome (update_metrics stage l) w = Ok tt ∨
   outcome (update_metrics stage l) w = Raise (KeyError "init")) ∧
  dom (heap w') = dom (heap w) ∧
  (∀ l', l' ≠ l → heap w' !! l' = heap w !! l') ∧
  ∃ m', heap w' !! l = Some m' ∧
    (∀ d e k, e ∈ emitted reported stage → k ∈ kinds →
       ((∃ v, EvSetItem l (delta_key d e k) v ∈ evs) ↔
        is_Some (domain_dict cm gm d !! Some e)) ∧
       (∀ snap, domain_dict cm gm d !! Some e = Some snap →
                m' !! delta_key d e k = snapshot_get k snap) ∧
       (domain_dict cm gm d !! Some e = None →
        m' !! delta_key d e k = m !! delta_key d e k)) ∧
    (∀ l' key v, EvSetItem l' key v ∈ evs →
       l' = l ∧
       ((∃ d e k, e ∈ emitted reported stage ∧ k ∈ kinds ∧ key = delta_key d e k) ∨
        (∃ d, key = before_init_key d))) ∧
    (∀ key, (∀ v, EvSetItem l key v ∉ evs) → m' !! key = m !! key).
Proof.
  intros Hskip Hcur Hopen Hrep Hc Hg Hm w' evs.
  destruct (update_metrics_effects l stage w cur reported cm gm)
    as (Hout & Hevs & Hheap & _); try assumption.
  fold evs in Hevs. fold w' in Hheap. rewrite <- Hevs in Hheap.
  assert (Hall : ∀ l' key v, EvSetItem l' key v ∈ evs →
            l' = l ∧
            ((∃ d e k, e ∈ emitted reported stage ∧ k ∈ kinds ∧ key = delta_key d e k) ∨
             (∃ d, key = before_init_key d))).
  { intros l' key v Hin. rewrite Hevs in Hin.
    apply elem_of_update_writes in Hin as [Hin|Hin].
    - destruct Hin as (d & e & k & snap & v' & He & Hk & _ & _ & Heq).
      injection Heq as -> -> _. split; [reflexivity|]. left. exists d, e, k. auto.
    - apply elem_of_before_init in Hin as (_ & d & snap & _ & Heq).
      injection Heq as -> -> _. split; [reflexivity|]. right. now exists d. }
  split; [rewrite Hout; apply before_init_outcome|].
  split; [rewrite Hheap; apply dom_replay|].
  split.
  { intros l' Hne. rewrite Hheap, replay_lookup.
    destruct (heap w !! l') as [m0|]; [cbn|reflexivity].
    f_equal. apply (dict_after_elsewhere evs l); [assumption|].
    intros l0 key v Hin. now apply (Hall l0 key v). }
  exists (dict_after evs l m).
  split; [now rewrite Hheap, replay_lookup, Hm|].
  split; [|split; [exact Hall|]].
  - intros d e k He Hk. split; [|split].
    + split.
      * intros [v Hin]. rewrite Hevs in Hin.
        apply delta_write_origin in Hin as (_ & snap & -> & _); [eauto | assumption].
      * intros [snap Hsnap].
        destruct (snapshot_get_kind k snap Hk) as [v Hv].
        exists v. rewrite Hevs. apply elem_of_update_writes. left.
        exists d, e, k, snap, v. auto.
    + intros snap Hsnap.
      destruct (snapshot_get_kind k snap Hk) as [v Hv]. rewrite Hv.
      apply dict_after_written.
      * right. exists v. rewrite Hevs. apply elem_of_update_writes. left.
        exists d, e, k, snap, v. auto.
      * intros v' Hin. rewrite Hevs in Hin.
        apply delta_write_origin in Hin as (_ & snap' & Hs & Hv'); [|assumption].
        congruence.
    + intros Hnone. apply dict_after_unwritten.
      intros v Hin. rewrite Hevs in Hin.
      apply delta_write_origin in Hin as (_ & snap' & Hs & _); [|assumption].
      congruence.
  - intros key Hno. now apply dict_after_unwritten.
Qed.

Lemma update_metrics_in_place_witness :
  ∃ m', heap (run (update_metrics "train" 0%nat) init_then_train) !! 0%nat = Some m' ∧
        m' !! "train_memory_cpu_alloc_delta"%string = Some 50 ∧
        m' !! "train_memory_gpu_peaked_delta"%string = Some 5.
Proof.
  destruct (update_metrics_in_place init_then_train "train" 0%nat ∅ None false
              (default ∅ (cpu (self init_then_train)))
              (default ∅ (gpu (self init_then_train)))
              eq_refl eq_refl eq_refl eq_refl eq_refl eq_refl eq_refl)
    as (_ & _ & _ & m' & Hm' & Hkeys & _).
  exists m'. split; [exact Hm'|]. split.
  - destruct (Hkeys Cpu "train"%string "alloc"%string) as (_ & Hv & _).
    + right. left.
    + left.
    + exact (Hv (mkSnapshot 100 150 50 30) eq_refl).
  - destruct (Hkeys Gpu "train"%string "peaked"%string) as (_ & Hv & _).
    + right. left.
    + right. left.
    + exact (Hv (mkSnapshot 10 15 5 5) eq_refl).
Defined.

(** C10. The first [update_metrics] on a tracker that has no [init]
    snapshot in the CPU dictionary, or has one there but none in the
    accelerator dictionary, raises KeyError at the [before_init] lookup.
    By then [init_reported] is set, so the tracker is not as it was, and
    the delta keys of the requested stage are written for the snapshots it
    has; the accelerator's [before_init] key is not written, and the CPU's
    is written exactly when the CPU dictionary has the [init] snapshot. *)
Theorem first_update_without_init w stage l m cur cm gm :
  skip_memory_metrics (self w) = false →
  cur_stage (self w) = Some cur →
  other_stage_open cur stage = false →
  init_reported (self w) = Some false →
  cpu (self w) = Some cm →
  gpu (self w) = Some gm →
  heap w !! l = Some m →
  cm !! Some "init"%string = None ∨ gm !! Some "init"%string = None →
  let w' := run (update_metrics stage l) w in
  let evs := new_events (update_metrics stage l) w in
  outcome (update_metrics stage l) w = Raise (KeyError "init") ∧
  init_reported (self w') = Some true ∧
  self w' ≠ self w ∧
  (∃ m', heap w' !! l = Some m' ∧
     ∀ d k snap, k ∈ kinds → domain_dict cm gm d !! Some stage = Some snap →
       (∃ v, EvSetItem l (delta_key d stage k) v ∈ evs) ∧
       m' !! delta_key d stage k = snapshot_get k snap) ∧
  (∀ v, EvSetItem l (before_init_key Gpu) v ∉ evs) ∧
  ((∃ v, EvSetItem l (before_init_key Cpu) v ∈ evs) ↔
   is_Some (cm !! Some "init"%string)).
Proof.
  intros Hskip Hcur Hopen Hrep Hc Hg Hm Hinit w' evs.
  destruct (update_metrics_effects l stage w cur false cm gm)
    as (Hout & Hevs & Hheap & Hself); try assumption.
  fold evs in Hevs. fold w' in Hheap, Hself.
  assert (Hbi : ∀ d v, EvSetItem l (before_init_key d) v ∈ evs →
                 d = Cpu ∧ is_Some (cm !! Some "init"%string)).
  { intros d v Hin. rewrite Hevs in Hin.
    apply elem_of_update_writes in Hin as [Hin|Hin].
    - destruct Hin as (d' & e & k & snap & v' & _ & Hk & _ & _ & Heq).
      injection Heq as Hkey _. symmetry in Hkey.
      now apply delta_key_not_before_init in Hkey.
    - revert Hin. unfold before_init_result. cbn [negb orb].
      destruct (cm !! Some "init"%string) as [ci|]; [|inversion 1].
      destruct Hinit as [Hci|Hgi]; [discriminate Hci|]. rewrite Hgi. cbn.
      intros Hin. apply list_elem_of_singleton in Hin. injection Hin as Hkey _.
      apply (before_init_key_inj d Cpu) in Hkey. split; [assumption | eauto]. }
  split; [|split; [|split; [|split; [|split]]]].
  - rewrite Hout. unfold before_init_result. cbn [negb orb].
    destruct (cm !! Some "init"%string); [|reflexivity].
    destruct Hinit as [Hci|Hgi]; [discriminate Hci|]. now rewrite Hgi.
  - rewrite Hself. reflexivity.
  - rewrite Hself. intros Heq. apply (f_equal init_reported) in Heq.
    rewrite Hrep in Heq. discriminate Heq.
  - exists (dict_after evs l m).
    split; [now rewrite Hheap, replay_lookup, Hm, Hevs|].
    intros d k snap Hk Hsnap. rewrite Hevs.
    apply written_delta_value; [right; left | assumption..].
  - intros v Hin. apply Hbi in Hin as [Hd _]. discriminate Hd.
  - split.
    + intros [v Hin]. now apply Hbi in Hin as [_ H].
    + intros [ci Hci]. destruct Hinit as [Hc'|Hgi]; [congruence|].
      exists (snap_begin ci). rewrite Hevs. apply elem_of_update_writes. right.
      unfold before_init_result. cbn [negb orb]. rewrite Hci, Hgi. left.
Qed.

Lemma first_update_without_init_witness :
  outcome (update_metrics "train" 0%nat) train_only = Raise (KeyError "init") ∧
  init_reported (self (run (update_metrics "train" 0%nat) train_only)) = Some true.
Proof.
  destruct (first_update_without_init train_only "train" 0%nat ∅ None
              (default ∅ (cpu (self train_only)))
              (default ∅ (gpu (self train_only)))
              eq_refl eq_refl eq_refl eq_refl eq_refl eq_refl eq_refl
              (or_introl eq_refl))
    as (H1 & H2 & _).
  split; [exact H1 | exact H2].
Defined.

End MetricsClaims.

Section InitReported.

Lemma keeps_ret {A} (a : A) : keeps_reported (ret a).
Proof. intros w H. exact H. Qed.

Lemma keeps_raise {A} e : keeps_reported (@raise A e).
Proof. intros w H. exact H. Qed.

Lemma keeps_bind {A B} (c : M A) (k : A → M B) :
  keeps_reported c → (∀ a, keeps_reported (k a)) → keeps_reported (bind c k).
Proof.
  intros Hc Hk w H. unfold bind. specialize (Hc w H).
  destruct (c w) as [[a|e] w1]; [now apply Hk | exact Hc].
Qed.

Lemma keeps_getattr {A} name (field : MemoryTracker → option A) :
  keeps_reported (getattr name field).
Proof. intros w H. unfold getattr. now destruct (field (self w)). Qed.

Lemma keeps_emit e : keeps_reported (emit e).
Proof. intros w H. exact H. Qed.

Lemma keeps_setitem l key v : keeps_reported (setitem l key v).
Proof. intros w H. exact H. Qed.

Lemma keeps_setattr upd :
  (∀ t, init_reported t = Some true → init_reported (upd t) = Some true) →
  keeps_reported (setattr upd).
Proof. intros Hupd w H. now apply Hupd. Qed.

Lemma keeps_for_each {A} (xs : list A) body :
  (∀ x, keeps_reported (body x)) → keeps_reported (for_each xs body).
Proof.
  intros Hbody. induction xs as [|x xs IH]; [apply keeps_ret|].
  apply keeps_bind; [apply Hbody | intros _; exact IH].
Qed.

Ltac keeps :=
  repeat first
    [ apply keeps_ret | apply keeps_raise | apply keeps_getattr
    | apply keeps_emit | apply keeps_setitem
    | apply keeps_setattr; intros ? ?; first [assumption | reflexivity]
    | apply keeps_for_each; intros ?
    | apply keeps_bind; [|intros ?]
    | match goal with
      | |- keeps_reported (if ?b then _ else _) => destruct b
      | |- keeps_reported (match ?x with _ => _ end) => destruct x
      end ].

Lemma keeps_derive_stage caller : keeps_reported (derive_stage caller).
Proof. unfold derive_stage. keeps. Qed.

Lemma keeps_start caller a r : keeps_reported (start caller a r).
Proof.
  intros w H. unfold start. destruct (skip_memory_metrics (self w)); [exact H|].
  revert w H. fold (keeps_reported (A := unit)).
  apply keeps_bind; [apply keeps_derive_stage | intros stage].
  unfold cpu_mem_used. keeps.
Qed.

Lemma keeps_stop stage a m r : keeps_reported (stop stage a m r).
Proof. unfold stop, cpu_mem_used. keeps. Qed.

Lemma keeps_update_metrics stage l : keeps_reported (update_metrics stage l).
Proof.
  intros w H. unfold update_metrics. destruct (skip_memory_metrics (self w)); [exact H|].
  revert w H. fold (keeps_reported (A := unit)).
  unfold stages_to_emit, write_deltas, write_before_init, getitem_stage, getitem_snap.
  keeps.
Qed.

Lemma keeps_stop_and_update_metrics caller a m r l :
  keeps_reported (stop_and_update_metrics caller a m r l).
Proof.
  intros w H. unfold stop_and_update_metrics.
  destruct (skip_memory_metrics (self w)); [exact H|].
  revert w H. fold (keeps_reported (A := unit)).
  apply keeps_bind; [apply keeps_derive_stage | intros stage].
  apply keeps_bind; [apply keeps_stop | intros _].
  destruct l; [apply keeps_update_metrics | apply keeps_ret].
Qed.

Lemma keeps_peak_monitor_loop sch : keeps_reported (peak_monitor_loop sch).
Proof.
  induction sch as [|[r|b] sch IH]; cbn [peak_monitor_loop].
  - apply keeps_ret.
  - apply keeps_bind; [unfold peak_monitor_body, cpu_mem_used; keeps|].
    intros [|]; [apply keeps_ret | exact IH].
  - apply keeps_bind; [keeps | intros _; exact IH].
Qed.

Lemma keeps_exec call : keeps_reported (exec call).
Proof.
  destruct call; cbn [exec].
  - apply keeps_start.
  - apply keeps_stop.
  - apply keeps_update_metrics.
  - apply keeps_stop_and_update_metrics.
  - apply keeps_bind; [|intros _; apply keeps_ret].
    unfold peak_monitor_function.
    apply keeps_bind; [keeps | intros _; apply keeps_peak_monitor_loop].
Qed.

End InitReported.

Section InitKeys.

(** C6, as stated, fails twice.  After a first report, an [update_metrics]
    for the stage [init] (the stage of a second cycle started from
    [test_MemoryTracker]) writes the four [init] delta keys and the two
    [before_init] keys again.  And a first [update_metrics] on a tracker
    without an [init] snapshot writes the requested stage's keys only and
    raises KeyError. *)
Lemma init_keys_not_once :
  (init_reported (self after_test_cycle) = Some true ∧
   new_events (update_metrics "init" 0%nat) after_test_cycle =
     [EvSetItem 0 "init_memory_cpu_alloc_delta" 50;
      EvSetItem 0 "init_memory_gpu_alloc_delta" 5;
      EvSetItem 0 "init_memory_cpu_peaked_delta" 30;
      EvSetItem 0 "init_memory_gpu_peaked_delta" 5;
      EvSetItem 0 "before_init_memory_cpu" 100;
      EvSetItem 0 "before_init_memory_gpu" 10]) ∧
  (init_reported (self train_only) = Some false ∧
   outcome (update_metrics "train" 0%nat) train_only = Raise (KeyError "init") ∧
   new_events (update_metrics "train" 0%nat) train_only =
     [EvSetItem 0 "train_memory_cpu_alloc_delta" 50;
      EvSetItem 0 "train_memory_gpu_alloc_delta" 5;
      EvSetItem 0 "train_memory_cpu_peaked_delta" 30;
      EvSetItem 0 "train_memory_gpu_peaked_delta" 5]).
Proof. vm_compute. repeat split. Qed.

Lemma stages_to_emit_first stage w :
  init_reported (self w) = Some false →
  outcome (stages_to_emit stage) w = Ok ["init"; stage]%string.
Proof. intros H. open_world w. reflexivity. Qed.

Lemma before_init_written l cm gm stage d snap m :
  is_Some (cm !! Some "init"%string) → is_Some (gm !! Some "init"%string) →
  domain_dict cm gm d !! Some "init"%string = Some snap →
  EvSetItem l (before_init_key d) (snap_begin snap) ∈ update_writes l cm gm false stage ∧
  dict_after (update_writes l cm gm false stage) l m !! before_init_key d =
    Some (snap_begin snap).
Proof.
  intros [ci Hci] [gi Hgi] Hsnap.
  assert (Hin : EvSetItem l (before_init_key d) (snap_begin snap)
                  ∈ update_writes l cm gm false stage).
  { apply elem_of_update_writes. right.
    unfold before_init_result. cbn [negb orb]. rewrite Hci, Hgi. cbn [snd].
    destruct d; cbn in Hsnap.
    - replace snap with ci by congruence. left.
    - replace snap with gi by congruence. right. left. }
  split; [exact Hin|].
  apply dict_after_written; [eauto|].
  intros v' Hin'. apply elem_of_update_writes in Hin' as [Hin'|Hin'].
  - destruct Hin' as (d' & e & k & snap' & v'' & _ & Hk & _ & _ & Heq).
    injection Heq as Hkey _. symmetry in Hkey.
    now apply delta_key_not_before_init in Hkey.
  - apply elem_of_before_init in Hin' as (_ & d' & snap' & Hs & Heq).
    injection Heq as Hkey ->. apply before_init_key_inj in Hkey as ->. congruence.
Qed.

(** C6, amended.  On the first [update_metrics] that gets past its gates
    the list of stages is [["init"; stage]] and [init_reported] goes from
    false to true.  When both dictionaries have an [init] snapshot the call
    returns normally and writes, with the keys of the requested stage, the
    [init] delta keys and the two [before_init] keys.  No call on the
    tracker clears [init_reported], and once it is set an [update_metrics]
    for a stage other than [init] writes no [init] delta key and no
    [before_init] key. *)
Theorem init_reported_gates_init_keys w stage l m cur cm gm :
  skip_memory_metrics (self w) = false →
  cur_stage (self w) = Some cur →
  other_stage_open cur stage = false →
  init_reported (self w) = Some false →
  cpu (self w) = Some cm →
  gpu (self w) = Some gm →
  heap w !! l = Some m →
  is_Some (cm !! Some "init"%string) →
  is_Some (gm !! Some "init"%string) →
  let first := update_metrics stage l in
  outcome (stages_to_emit stage) w = Ok ["init"; stage]%string ∧
  outcome first w = Ok tt ∧
  init_reported (self (run first w)) = Some true ∧
  (∃ m1, heap (run first w) !! l = Some m1 ∧
     (∀ d e k snap, e ∈ ["init"; stage]%string → k ∈ kinds →
        domain_dict cm gm d !! Some e = Some snap →
        (∃ v, EvSetItem l (delta_key d e k) v ∈ new_events first w) ∧
        m1 !! delta_key d e k = snapshot_get k snap) ∧
     (∀ d snap, domain_dict cm gm d !! Some "init"%string = Some snap →
        EvSetItem l (before_init_key d) (snap_begin snap) ∈ new_events first w ∧
        m1 !! before_init_key d = Some (snap_begin snap))) ∧
  (∀ call w2, init_reported (self w2) = Some true →
     init_reported (self (run (exec call) w2)) = Some true) ∧
  (∀ w2 stage2 l2 cur2 cm2 gm2,
     skip_memory_metrics (self w2) = false →
     cur_stage (self w2) = Some cur2 →
     cpu (self w2) = Some cm2 →
     gpu (self w2) = Some gm2 →
     init_reported (self w2) = Some true →
     stage2 ≠ "init"%string →
     ∀ d k v, k ∈ kinds →
       (EvSetItem l2 (delta_key d "init" k) v ∉ new_events (update_metrics stage2 l2) w2) ∧
       (EvSetItem l2 (before_init_key d) v ∉ new_events (update_metrics stage2 l2) w2)).
Proof.
  intros Hskip Hcur Hopen Hrep Hc Hg Hm Hci Hgi first.
  destruct (update_metrics_effects l stage w cur false cm gm)
    as (Hout & Hevs & Hheap & Hself); try assumption.
  fold first in Hout, Hevs, Hheap, Hself.
  split; [now apply stages_to_emit_first|].
  split.
  { rewrite Hout. unfold before_init_result. cbn [negb orb].
    destruct Hci as [ci ->], Hgi as [gi ->]. reflexivity. }
  split; [now rewrite Hself|].
  split.
  { exists (dict_after (update_writes l cm gm false stage) l m).
    split; [now rewrite Hheap, replay_lookup, Hm|]. split.
    - intros d e k snap He Hk Hsnap. rewrite Hevs.
      now apply written_delta_value.
    - intros d snap Hsnap. rewrite Hevs. now apply before_init_written. }
  split; [intros call w2 H2; now apply keeps_exec|].
  intros w2 stage2 l2 cur2 cm2 gm2 Hskip2 Hcur2 Hc2 Hg2 Hrep2 Hne d k v Hk.
  destruct (other_stage_open cur2 stage2) eqn:Hopen2.
  { unfold new_events, run.
    rewrite (update_metrics_gated l2 stage2 w2 cur2) by assumption.
    cbn [snd]. rewrite drop_all. split; apply not_elem_of_nil. }
  destruct (update_metrics_effects l2 stage2 w2 cur2 true cm2 gm2)
    as (_ & Hevs2 & _); try assumption.
  rewrite Hevs2. split; intros Hin;
    apply elem_of_update_writes in Hin as [Hin|Hin].
  - destruct Hin as (d' & e & k' & snap & v' & He & Hk' & _ & _ & Heq).
    injection Heq as Hkey _. apply delta_key_inj in Hkey as (_ & <- & _); [|assumption..].
    cbn in He. apply list_elem_of_singleton in He. congruence.
  - apply elem_of_before_init in Hin as (_ & d' & snap & _ & Heq).
    injection Heq as Hkey _. now apply delta_key_not_before_init in Hkey.
  - destruct Hin as (d' & e & k' & snap & v' & _ & Hk' & _ & _ & Heq).
    injection Heq as Hkey _. symmetry in Hkey.
    now apply delta_key_not_before_init in Hkey.
  - apply elem_of_before_init in Hin as ([Hf|Hs] & _); [discriminate Hf | contradiction].
Qed.

(** The first report after [__init__] and a [train] cycle. *)
Lemma init_reported_gates_init_keys_witness :
  outcome (update_metrics "train" 0%nat) init_then_train = Ok tt ∧
  init_reported (self (run (update_metrics "train" 0%nat) init_then_train)) = Some true.
Proof.
  destruct (init_reported_gates_init_keys init_then_train "train" 0%nat ∅ None
              (default ∅ (cpu (self init_then_train)))
              (default ∅ (gpu (self init_then_train)))
              eq_refl eq_refl eq_refl eq_refl eq_refl eq_refl eq_refl
              (ex_intro _ (mkSnapshot 50 55 5 5) eq_refl)
              (ex_intro _ (mkSnapshot 1 4 3 5) eq_refl))
    as (_ & H1 & H2 & _).
  split; [exact H1 | exact H2].
Defined.

End InitKeys.

(** * Further properties of the code *)

Section NestedStages.

(** X1. [start()] from a call site bound to another stage than the open
    one returns at its gate: the state is as before, no collaborator is
    called and no sampler is launched. *)
Theorem start_other_stage_noop w caller (s1 s2 : string) (a r : Z) :
  skip_memory_metrics (self w) = false →
  cur_stage (self w) = Some (Some s1) →
  stages !! caller = Some s2 →
  s2 ≠ s1 →
  start caller a r w = (Ok tt, w).
Proof.
  intros Hskip Hcur Hst Hne. open_world w.
  unfold start. cbv beta iota delta [self skip_memory_metrics].
  unfold bind at 1. rewrite (derive_stage_known _ _ _ Hst).
  unfold_py. cbn. rewrite bool_decide_eq_true_2 by congruence. reflexivity.
Qed.

Lemma start_other_stage_noop_witness :
  let w := run (start "train" 7 70) (fresh false) in
  start "evaluate" 8 80 w = (Ok tt, w).
Proof.
  intros w.
  apply (start_other_stage_noop w "evaluate" "train" "eval" 8 80);
    [reflexivity | reflexivity | reflexivity | discriminate].
Defined.

(** X2. [stop_and_update_metrics] from a call site bound to another stage
    than the open one changes nothing: neither [stop] nor [update_metrics]
    gets past its gate, so no snapshot is stored, the metrics dictionary
    is not written and [init_reported] is not set. *)
Theorem nested_stop_and_update_noop w caller (s1 s2 : string) (a m r : Z)
    (metrics : option nat) :
  skip_memory_metrics (self w) = false →
  cur_stage (self w) = Some (Some s1) →
  stages !! caller = Some s2 →
  s2 ≠ s1 →
  stop_and_update_metrics caller a m r metrics w = (Ok tt, w).
Proof.
  intros Hskip Hcur Hst Hne.
  assert (Hopen : other_stage_open (Some s1) s2 = true).
  { cbn. apply bool_decide_eq_true_2. congruence. }
  unfold stop_and_update_metrics. rewrite Hskip.
  unfold bind at 1. rewrite (derive_stage_known _ _ _ Hst).
  unfold bind at 1. rewrite (stop_gated w s2 (Some s1)) by assumption.
  destruct metrics as [l|]; [|reflexivity].
  now apply (update_metrics_gated l s2 w (Some s1)).
Qed.

Lemma nested_stop_and_update_noop_witness :
  let w := run (start "train" 7 70) (fresh false) in
  stop_and_update_metrics "evaluate" 8 9 80 (Some 0%nat) w = (Ok tt, w).
Proof.
  intros w.
  apply (nested_stop_and_update_noop w "evaluate" "train" "eval" 8 9 80 (Some 0%nat));
    [reflexivity | reflexivity | reflexivity | discriminate].
Defined.

(** X3. On a tracker that measures, [start] and [stop_and_update_metrics]
    from a call site that is not in the table raise AssertionError before
    anything is read or changed. *)
Theorem unknown_caller_asserts w caller (a m r : Z) (metrics : option nat) :
  skip_memory_metrics (self w) = false →
  stages !! caller = None →
  start caller a r w = (Raise AssertionError, w) ∧
  stop_and_update_metrics caller a m r metrics w = (Raise AssertionError, w).
Proof.
  intros Hskip Hst. unfold start, stop_and_update_metrics. rewrite Hskip.
  unfold bind, derive_stage. now rewrite Hst.
Qed.

Lemma unknown_caller_asserts_witness :
  start "fit" 1 2 (fresh false) = (Raise AssertionError, fresh false).
Proof.
  apply (unknown_caller_asserts (fresh false) "fit" 1 0 2 None); reflexivity.
Defined.

End NestedStages.

Section SamplerRace.

(** X4. [stop] right after [start], before the sampler thread has made its
    first assignment, on a tracker whose sampler never ran: the peak
    attribute does not exist yet, so [stop] raises AttributeError at line
    76.  By then the accelerator snapshot is stored and the CPU snapshot is
    not, the flag is cleared and the stage is still open. *)
Theorem stop_before_sampler_runs w caller stage gm cm (a1 r1 a2 m2 r2 : Z) :
  skip_memory_metrics (self w) = false →
  process (self w) = Some tt →
  gpu (self w) = Some gm →
  cpu (self w) = Some cm →
  cur_stage (self w) = Some None →
  cpu_memory_used_peak (self w) = None →
  stages !! caller = Some stage →
  let prog := start caller a1 r1 ;; stop stage a2 m2 r2 in
  outcome prog w = Raise (AttributeError "cpu_memory_used_peak") ∧
  gpu (self (run prog w)) =
    Some (<[Some stage := mkSnapshot a1 a2 (a2 - a1) (Z.max 0 (m2 - a2))]> gm) ∧
  cpu (self (run prog w)) = Some cm ∧
  cur_stage (self (run prog w)) = Some (Some stage) ∧
  peak_monitoring (self (run prog w)) = Some false.
Proof.
  intros Hskip Hproc Hg Hc Hcur Hpk Hst prog.
  unfold outcome, run, prog. unfold bind at 1 2 3 4 5.
  rewrite (start_runs w caller stage None a1 r1) by (auto; reflexivity).
  open_world w. unfold_py. cbn [other_stage_open].
  rewrite bool_decide_eq_false_2 by auto.
  repeat split.
Qed.

Lemma stop_before_sampler_runs_witness :
  outcome (start "train" 10 100 ;; stop "train" 15 20 150) (fresh false) =
    Raise (AttributeError "cpu_memory_used_peak").
Proof.
  pose proof (stop_before_sampler_runs (fresh false) "train" "train" ∅ ∅ 10 100 15 20 150
                eq_refl eq_refl eq_refl eq_refl eq_refl eq_refl eq_refl) as (H & _).
  exact H.
Defined.

End SamplerRace.

Section Preserves.

Context (P : World → Prop).

Lemma preserves_ret {A} (a : A) : preserves P (ret a).
Proof. intros w H. exact H. Qed.

Lemma preserves_raise {A} e : preserves P (@raise A e).
Proof. intros w H. exact H. Qed.

Lemma preserves_bind {A B} (c : M A) (k : A → M B) :
  preserves P c → (∀ a, preserves P (k a)) → preserves P (bind c k).
Proof.
  intros Hc Hk w H. unfold bind. specialize (Hc w H).
  destruct (c w) as [[a|e] w1]; [now apply Hk | exact Hc].
Qed.

Lemma preserves_getattr {A} name (field : MemoryTracker → option A) :
  preserves P (getattr name field).
Proof. intros w H. unfold getattr. now destruct (field (self w)). Qed.

Lemma preserves_for_each {A} (xs : list A) body :
  (∀ x, preserves P (body x)) → preserves P (for_each xs body).
Proof.
  intros Hbody. induction xs as [|x xs IH]; [apply preserves_ret|].
  apply preserves_bind; [apply Hbody | intros _; exact IH].
Qed.

Lemma preserves_derive_stage caller : preserves P (derive_stage caller).
Proof.
  unfold derive_stage. destruct (stages !! caller);
    [apply preserves_ret | apply preserves_raise].
Qed.

Lemma preserves_skip_gate {A} (c : M A) (skipped : A) :
  preserves P c →
  preserves P (fun w => (if skip_memory_metrics (self w) then ret skipped else c) w).
Proof.
  intros Hc w H. destruct (skip_memory_metrics (self w)); [exact H | now apply Hc].
Qed.

End Preserves.

(** Programs built from the primitives: [side] proves that the property
    survives the assignment, the logged call or the write at hand. *)
Ltac preserves_with side :=
  repeat first
    [ apply preserves_ret | apply preserves_raise | apply preserves_getattr
    | apply preserves_derive_stage
    | apply preserves_for_each; intros ?
    | apply preserves_bind; [|intros ?]
    | match goal with
      | |- preserves _ (if ?b then _ else _) => destruct b
      | |- preserves _ (match ?x with _ => _ end) => destruct x
      | |- preserves _ (setattr _) => solve [intros [? ? ?]; side]
      | |- preserves _ (emit _) => solve [intros [? ? ?]; side]
      | |- preserves _ (setitem _ _ _) => solve [intros [? ? ?]; side]
      end ].

Section WellFormed.

Lemma stages_range caller stage :
  stages !! caller = Some stage → stage ∈ stage_names.
Proof.
  unfold stages. intros H. apply elem_of_list_to_map_2 in H.
  unfold stage_names. rewrite !elem_of_cons in *.
  destruct H as [H|[H|[H|[H|[H|H]]]]];
    try (injection H as _ ->; tauto). now apply elem_of_nil in H.
Qed.

Lemma wf_init : tracker_wf (init false).
Proof.
  constructor; cbn; eauto.
  - exists None. split; reflexivity.
  - exists ∅, ∅. split; [reflexivity|]. split; [reflexivity|].
    split; [set_solver|]. split; [intros k Hk; set_solver|].
    split; apply map_Forall_empty.
Qed.

Lemma start_gated w caller stage cur a r :
  skip_memory_metrics (self w) = false →
  cur_stage (self w) = Some cur →
  stages !! caller = Some stage →
  other_stage_open cur stage = true →
  start caller a r w = (Ok tt, w).
Proof.
  intros Hskip Hcur Hst Hopen. open_world w.
  unfold start. cbv beta iota delta [self skip_memory_metrics].
  unfold bind at 1. rewrite (derive_stage_known _ _ _ Hst).
  unfold_py. now rewrite Hopen.
Qed.

Lemma snapshot_ok_stop b e p : snapshot_ok (mkSnapshot b e (e - b) (Z.max 0 (p - e))).
Proof. split; cbn; lia. Qed.

Lemma wf_start caller a r :
  preserves (fun w => tracker_wf (self w)) (start caller a r).
Proof.
  intros w Hwf.
  destruct Hwf as [Hskip Hproc Hrep (cur & Hcur & Hk) Hbegin Hdicts].
  destruct (stages !! caller) as [stage|] eqn:Hst.
  - destruct (other_stage_open cur stage) eqn:Hopen.
    + rewrite (start_gated w caller stage cur) by assumption.
      now constructor; eauto.
    + rewrite (start_runs w caller stage cur) by assumption.
      open_world w. constructor; cbn; eauto.
      exists (Some stage). split; [reflexivity|]. cbn. now apply (stages_range caller).
  - unfold start. rewrite Hskip. unfold bind, derive_stage. rewrite Hst.
    now constructor; eauto.
Qed.

Lemma dom_insert_mono (cm gm : gmap StageKey Snapshot) k a b :
  dom cm ⊆ dom gm → dom (<[k := a]> cm) ⊆ dom (<[k := b]> gm).
Proof.
  intros Hsub x. rewrite !dom_insert_L, !elem_of_union.
  intros [H|H]; [now left | right; now apply Hsub].
Qed.

Lemma dom_insert_right (cm gm : gmap StageKey Snapshot) k b :
  dom cm ⊆ dom gm → dom cm ⊆ dom (<[k := b]> gm).
Proof.
  intros Hsub x H. rewrite dom_insert_L, elem_of_union. right. now apply Hsub.
Qed.

Lemma wf_stop stage a m r :
  preserves (fun w => tracker_wf (self w)) (stop stage a m r).
Proof.
  intros w Hwf.
  destruct Hwf as [Hskip Hproc Hrep (cur & Hcur & Hk) Hbegin
                   (gm & cm & Hg & Hc & Hsub & Hkeys & Hgok & Hcok)].
  destruct (other_stage_open cur stage) eqn:Hopen.
  { rewrite (stop_gated w stage cur) by assumption.
    constructor; eauto 10. }
  assert (Hkeys' : ∀ s k, k ∈ dom (<[cur := s]> gm) → known_stage k).
  { intros s k Hin. rewrite dom_insert_L in Hin.
    apply elem_of_union in Hin as [Hin|Hin]; [|now apply Hkeys].
    apply elem_of_singleton in Hin. now subst k. }
  open_world w. unfold_py. rewrite Hopen.
  repeat match goal with
         | |- context [match ?x with Some _ => _ | None => _ end] => destruct x
         end; cbn [snd self].
  all: constructor; cbn; eauto.
  all: try (exists None; split; reflexivity).
  all: eexists _, _; split; [reflexivity|]; split; [reflexivity|].
  all: split; [auto using dom_insert_mono, dom_insert_right|].
  all: split; [eauto|].
  all: split; try apply map_Forall_insert_2; auto using snapshot_ok_stop.
Qed.

Lemma wf_set_init_reported b t : tracker_wf t → tracker_wf (set_init_reported b t).
Proof. destruct t. intros [? ? ? ? ? ?]. constructor; cbn in *; eauto. Qed.

Lemma wf_set_cpu_memory_used_peak v t :
  tracker_wf t → tracker_wf (set_cpu_memory_used_peak v t).
Proof. destruct t. intros [? ? ? ? ? ?]. now constructor. Qed.

Lemma wf_set_peak_monitoring b t : tracker_wf t → tracker_wf (set_peak_monitoring b t).
Proof. destruct t. intros [? ? ? ? ? ?]. now constructor. Qed.

Lemma wf_update_metrics stage l :
  preserves (fun w => tracker_wf (self w)) (update_metrics stage l).
Proof.
  apply preserves_skip_gate.
  unfold stages_to_emit, write_deltas, write_before_init, getitem_stage, getitem_snap.
  preserves_with ltac:(first [exact id | apply wf_set_init_reported]).
Qed.

Lemma wf_stop_and_update_metrics caller a m r l :
  preserves (fun w => tracker_wf (self w)) (stop_and_update_metrics caller a m r l).
Proof.
  apply preserves_skip_gate.
  apply preserves_bind; [apply preserves_derive_stage | intros stage].
  apply preserves_bind; [apply wf_stop | intros _].
  destruct l; [apply wf_update_metrics | apply preserves_ret].
Qed.

Lemma wf_peak_monitor_loop sch :
  preserves (fun w => tracker_wf (self w)) (peak_monitor_loop sch).
Proof.
  induction sch as [|[r|b] sch IH]; cbn [peak_monitor_loop].
  - apply preserves_ret.
  - apply preserves_bind.
    + unfold peak_monitor_body, cpu_mem_used.
      preserves_with ltac:(first [exact id | apply wf_set_cpu_memory_used_peak]).
    + intros [|]; [apply preserves_ret | exact IH].
  - apply preserves_bind; [|intros _; exact IH].
    preserves_with ltac:(apply wf_set_peak_monitoring).
Qed.

Lemma wf_exec call : preserves (fun w => tracker_wf (self w)) (exec call).
Proof.
  destruct call; cbn [exec].
  - apply wf_start.
  - apply wf_stop.
  - apply wf_update_metrics.
  - apply wf_stop_and_update_metrics.
  - apply preserves_bind; [|intros _; apply preserves_ret].
    unfold peak_monitor_function.
    apply preserves_bind; [|intros _; apply wf_peak_monitor_loop].
    preserves_with ltac:(apply wf_set_cpu_memory_used_peak).
Qed.

Lemma wf_run_calls cs : ∀ w, tracker_wf (self w) → tracker_wf (self (run_calls cs w)).
Proof.
  induction cs as [|c cs IH]; intros w Hwf; [exact Hwf|].
  cbn [run_calls foldl]. apply IH. now apply wf_exec.
Qed.

End WellFormed.

Section Invariants.

(** X5. Whatever calls were made on a tracker built with
    [skip_memory_metrics=False], in whatever order and however each ended,
    every snapshot stored in [self.gpu] or [self.cpu] has
    [alloc = end - begin] and a [peaked] that is not negative. *)
Theorem stored_snapshots_ok (cs : list Call) h lg :
  let t := self (run_calls cs (mkWorld (init false) h lg)) in
  ∃ gm cm, gpu t = Some gm ∧ cpu t = Some cm ∧
    ∀ k s, gm !! k = Some s ∨ cm !! k = Some s →
      snap_alloc s = snap_end s - snap_begin s ∧ 0 ≤ snap_peaked s.
Proof.
  intros t.
  destruct (wf_run_calls cs (mkWorld (init false) h lg) wf_init)
    as [_ _ _ _ _ (gm & cm & Hg & Hc & _ & _ & Hgok & Hcok)].
  exists gm, cm. split; [exact Hg|]. split; [exact Hc|].
  intros k s [H|H]; [exact (Hgok k s H) | exact (Hcok k s H)].
Qed.

(** X6. In every state such a tracker reaches, a stage that has a CPU
    snapshot has an accelerator snapshot too: [stop] stores the
    accelerator's first, under the same key. *)
Theorem cpu_snapshot_has_gpu_snapshot (cs : list Call) h lg :
  let t := self (run_calls cs (mkWorld (init false) h lg)) in
  ∃ gm cm, gpu t = Some gm ∧ cpu t = Some cm ∧
    ∀ k, is_Some (cm !! k) → is_Some (gm !! k).
Proof.
  intros t.
  destruct (wf_run_calls cs (mkWorld (init false) h lg) wf_init)
    as [_ _ _ _ _ (gm & cm & Hg & Hc & Hsub & _)].
  exists gm, cm. split; [exact Hg|]. split; [exact Hc|].
  intros k Hk. apply elem_of_dom, Hsub, elem_of_dom, Hk.
Qed.

(** X7. In every state such a tracker reaches, the open stage is [None]
    or one of [init], [train], [eval], [test], and so is every key of the
    two dictionaries, whatever stage names [stop] and [update_metrics]
    were called with. *)
Theorem stages_stay_known (cs : list Call) h lg :
  let t := self (run_calls cs (mkWorld (init false) h lg)) in
  ∃ cur gm cm, cur_stage t = Some cur ∧ gpu t = Some gm ∧ cpu t = Some cm ∧
    known_stage cur ∧
    ∀ k, is_Some (gm !! k) ∨ is_Some (cm !! k) → known_stage k.
Proof.
  intros t.
  destruct (wf_run_calls cs (mkWorld (init false) h lg) wf_init)
    as [_ _ _ (cur & Hcur & Hk) _ (gm & cm & Hg & Hc & Hsub & Hkeys & _)].
  exists cur, gm, cm. repeat (split; [assumption|]).
  intros k [H|H]; apply Hkeys; [|apply Hsub]; now apply elem_of_dom.
Qed.

(** X8. On such a tracker [update_metrics] raises nothing but
    KeyError("init"), and raises it exactly when it is past its gate, emits
    the [init] stage first (a first report, or a report for [init]) and
    the CPU dictionary has no [init] snapshot.  The baseline of the CPU is
    never written without the accelerator's. *)
Theorem update_metrics_raises_only_keyerror (cs : list Call) h lg stage l :
  let w := run_calls cs (mkWorld (init false) h lg) in
  let evs := new_events (update_metrics stage l) w in
  ∃ cur reported cm,
    cur_stage (self w) = Some cur ∧ init_reported (self w) = Some reported ∧
    cpu (self w) = Some cm ∧
    (outcome (update_metrics stage l) w = Ok tt ∨
     outcome (update_metrics stage l) w = Raise (KeyError "init")) ∧
    (outcome (update_metrics stage l) w = Raise (KeyError "init") ↔
     other_stage_open cur stage = false ∧
     (reported = false ∨ stage = "init"%string) ∧
     cm !! Some "init"%string = None) ∧
    (∀ v, EvSetItem l (before_init_key Cpu) v ∈ evs →
          ∃ v', EvSetItem l (before_init_key Gpu) v' ∈ evs).
Proof.
  intros w evs.
  destruct (wf_run_calls cs (mkWorld (init false) h lg) wf_init)
    as [Hskip _ [reported Hrep] (cur & Hcur & _) _
        (gm & cm & Hg & Hc & Hsub & _)].
  fold w in Hskip, Hrep, Hcur, Hg, Hc.
  exists cur, reported, cm. repeat (split; [assumption|]).
  destruct (other_stage_open cur stage) eqn:Hopen.
  { unfold evs, outcome, new_events, run.
    rewrite (update_metrics_gated l stage w cur) by assumption.
    cbn [fst snd]. rewrite drop_all.
    split; [now left|]. split.
    - split; [discriminate | intros (H & _); discriminate H].
    - intros v Hin. now apply elem_of_nil in Hin. }
  destruct (update_metrics_effects l stage w cur reported cm gm)
    as (Hout & Hevs & _); try assumption.
  fold evs in Hevs. rewrite Hout, Hevs.
  assert (Hgpu : ∀ ci, cm !! Some "init"%string = Some ci →
                 ∃ gi, gm !! Some "init"%string = Some gi).
  { intros ci Hci. apply (elem_of_dom gm), Hsub, elem_of_dom. eauto. }
  split; [apply before_init_outcome|]. split.
  - unfold before_init_result.
    destruct (negb reported || bool_decide (stage = "init"%string)) eqn:Hfirst.
    + assert (reported = false ∨ stage = "init"%string) as Hwhy.
      { apply orb_true_iff in Hfirst as [H|H].
        - left. now destruct reported.
        - right. now apply bool_decide_eq_true_1 in H. }
      destruct (cm !! Some "init"%string) as [ci|] eqn:Hci.
      * destruct (Hgpu ci eq_refl) as [gi ->]. cbn.
        split; [discriminate | intros (_ & _ & H); discriminate H].
      * cbn. tauto.
    + cbn. split; [discriminate|]. intros (_ & Hwhy & _).
      apply orb_false_iff in Hfirst as [H1 H2].
      apply bool_decide_eq_false_1 in H2.
      destruct Hwhy as [-> | ->]; [discriminate H1 | now destruct H2].
  - intros v Hin. apply elem_of_update_writes in Hin as [Hin|Hin].
    + destruct Hin as (d & e & k & snap & v' & _ & Hk & _ & _ & Heq).
      injection Heq as Hkey _. symmetry in Hkey.
      destruct (delta_key_not_before_init d Cpu e k Hk Hkey).
    + revert Hin. unfold before_init_result.
      destruct (negb reported || bool_decide (stage = "init"%string)) eqn:Hfirst;
        [|inversion 1].
      destruct (cm !! Some "init"%string) as [ci|] eqn:Hci; [|inversion 1].
      destruct (Hgpu ci eq_refl) as [gi Hgi]. rewrite Hgi. cbn. intros _.
      exists (snap_begin gi). apply elem_of_update_writes. right.
      unfold before_init_result. rewrite Hfirst, Hci, Hgi. right. left.
Qed.

End Invariants.

Section Errors.

Lemma stop_outcome_wf w stage a m r :
  tracker_wf (self w) →
  ∃ cur, cur_stage (self w) = Some cur ∧
    (outcome (stop stage a m r) w = Ok tt ∨
     outcome (stop stage a m r) w = Raise (AttributeError "gpu_memory_used_at_start") ∨
     outcome (stop stage a m r) w = Raise (AttributeError "cpu_memory_used_peak")) ∧
    (outcome (stop stage a m r) w = Raise (AttributeError "gpu_memory_used_at_start") ↔
     other_stage_open cur stage = false ∧ gpu_memory_used_at_start (self w) = None) ∧
    (outcome (stop stage a m r) w = Raise (AttributeError "cpu_memory_used_peak") ↔
     other_stage_open cur stage = false ∧
     is_Some (gpu_memory_used_at_start (self w)) ∧
     cpu_memory_used_peak (self w) = None).
Proof.
  intros [Hskip Hproc Hrep (cur & Hcur & Hk) Hbegin (gm & cm & Hg & Hc & _)].
  exists cur. split; [exact Hcur|].
  destruct (other_stage_open cur stage) eqn:Hopen.
  { unfold outcome. rewrite (stop_gated w stage cur) by assumption. cbn [fst].
    split; [now left|]. split; split; first [discriminate | intros [H _]; discriminate H]. }
  open_world w. unfold_py. rewrite Hopen.
  repeat match goal with
         | |- context [match ?x with Some _ => _ | None => _ end] => destruct x
         end; cbn [fst].
  all: try (destruct Hbegin as [? Hb]; [eauto | discriminate Hb]).
  all: split; [auto|].
  all: split; split; try discriminate; try (intros (_ & H); discriminate H);
    try (intros (_ & _ & H); discriminate H);
    try (intros (_ & [? H] & _); discriminate H); eauto.
Qed.

(** X9. On a tracker built with [skip_memory_metrics=False], in any state
    it reaches, [stop] raises nothing but AttributeError: on the begin
    value of the accelerator exactly when it is past its gate and no
    [start] ever took the begin values, and on the sampler's peak exactly
    when it is past its gate, the begin values exist and no sampler ever
    assigned the peak. *)
Theorem stop_raises_only_attribute_errors (cs : list Call) h lg stage a m r :
  let w := run_calls cs (mkWorld (init false) h lg) in
  ∃ cur, cur_stage (self w) = Some cur ∧
    (outcome (stop stage a m r) w = Ok tt ∨
     outcome (stop stage a m r) w = Raise (AttributeError "gpu_memory_used_at_start") ∨
     outcome (stop stage a m r) w = Raise (AttributeError "cpu_memory_used_peak")) ∧
    (outcome (stop stage a m r) w = Raise (AttributeError "gpu_memory_used_at_start") ↔
     other_stage_open cur stage = false ∧ gpu_memory_used_at_start (self w) = None) ∧
    (outcome (stop stage a m r) w = Raise (AttributeError "cpu_memory_used_peak") ↔
     other_stage_open cur stage = false ∧
     is_Some (gpu_memory_used_at_start (self w)) ∧
     cpu_memory_used_peak (self w) = None).
Proof.
  intros w. apply stop_outcome_wf, wf_run_calls, wf_init.
Qed.

(** X10. On such a tracker, in any state it reaches, [start] returns
    normally or raises AssertionError, and raises exactly when the
    caller's name is not in the table. *)
Theorem start_raises_only_assertion (cs : list Call) h lg caller a r :
  let w := run_calls cs (mkWorld (init false) h lg) in
  (outcome (start caller a r) w = Ok tt ∨
   outcome (start caller a r) w = Raise AssertionError) ∧
  (outcome (start caller a r) w = Raise AssertionError ↔ stages !! caller = None).
Proof.
  intros w.
  destruct (wf_run_calls cs (mkWorld (init false) h lg) wf_init)
    as [Hskip Hproc _ (cur & Hcur & _) _ _].
  fold w in Hskip, Hproc, Hcur. unfold outcome.
  destruct (stages !! caller) as [stage|] eqn:Hst.
  - destruct (other_stage_open cur stage) eqn:Hopen.
    + rewrite (start_gated w caller stage cur) by assumption. cbn.
      split; [now left|]. split; discriminate.
    + rewrite (start_runs w caller stage cur) by assumption. cbn.
      split; [now left|]. split; discriminate.
  - unfold start. rewrite Hskip. unfold bind, derive_stage. rewrite Hst. cbn.
    split; [now right|]. split; reflexivity.
Qed.

End Errors.

Section Frames.

Lemma heap_kept_start h0 caller a r :
  preserves (fun w => heap w = h0) (start caller a r).
Proof.
  apply preserves_skip_gate. unfold cpu_mem_used.
  preserves_with ltac:(exact id).
Qed.

Lemma heap_kept_stop h0 stage a m r :
  preserves (fun w => heap w = h0) (stop stage a m r).
Proof. unfold stop, cpu_mem_used. preserves_with ltac:(exact id). Qed.

Lemma kept_peak_monitor_loop (P : World → Prop) sch :
  (∀ t h lg v, P (mkWorld t h lg) → P (mkWorld (set_cpu_memory_used_peak v t) h lg)) →
  (∀ t h lg b, P (mkWorld t h lg) → P (mkWorld (set_peak_monitoring b t) h lg)) →
  (∀ t h lg e, P (mkWorld t h lg) → P (mkWorld t h (lg ++ [e]))) →
  preserves P (peak_monitor_function sch).
Proof.
  intros Hpeak Hflag Hlog. unfold peak_monitor_function.
  apply preserves_bind; [intros [t h lg]; apply Hpeak | intros _].
  induction sch as [|[r|b] sch IH]; cbn [peak_monitor_loop].
  - apply preserves_ret.
  - apply preserves_bind.
    + unfold peak_monitor_body, cpu_mem_used.
      preserves_with ltac:(first [apply Hpeak | apply Hlog]).
    + intros [|]; [apply preserves_ret | exact IH].
  - apply preserves_bind; [intros [t h lg]; apply Hflag | intros _; exact IH].
Qed.

(** X11. [start], [stop] and the sampler never touch a metrics
    dictionary: in any state and however they end, the heap of
    dictionaries is as it was; and so it is after
    [stop_and_update_metrics()] called without a dictionary. *)
Theorem metrics_untouched w caller stage (a m r : Z) sch :
  heap (run (start caller a r) w) = heap w ∧
  heap (run (stop stage a m r) w) = heap w ∧
  heap (run (stop_and_update_metrics caller a m r None) w) = heap w ∧
  heap (run (peak_monitor_function sch) w) = heap w.
Proof.
  split; [now apply (heap_kept_start (heap w))|].
  split; [now apply (heap_kept_stop (heap w))|].
  split.
  - apply (preserves_skip_gate (fun w' => heap w' = heap w)); [|reflexivity].
    apply preserves_bind; [apply preserves_derive_stage | intros s].
    apply preserves_bind; [apply heap_kept_stop | intros _; apply preserves_ret].
  - apply (kept_peak_monitor_loop (fun w' => heap w' = heap w)); auto.
Qed.


Lemma set_init_reported_twice t :
  set_init_reported true (set_init_reported true t) = set_init_reported true t.
Proof. now destruct t. Qed.

(** X13. [update_metrics], in any state and however it ends, changes
    nothing of the tracker but [init_reported], which it can only set:
    the snapshots and the open stage are never modified by a report. *)
Theorem update_metrics_sets_init_reported_only w stage l :
  self (run (update_metrics stage l) w) = self w ∨
  self (run (update_metrics stage l) w) = set_init_reported true (self w).
Proof.
  apply (preserves_skip_gate
           (fun w' => self w' = self w ∨ self w' = set_init_reported true (self w)));
    [|now left].
  unfold stages_to_emit, write_deltas, write_before_init, getitem_stage, getitem_snap.
  preserves_with ltac:(first
    [ exact id
    | cbn; intros [-> | ->]; right; [reflexivity | apply set_init_reported_twice] ]).
Qed.

(** X14. [update_metrics] for another stage than the open one returns at
    its gate: the dictionary is not written and [init_reported] is not
    set, so the report of that stage is lost. *)
Theorem update_metrics_other_stage_noop w (s1 s2 : string) (l : nat) :
  skip_memory_metrics (self w) = false →
  cur_stage (self w) = Some (Some s1) →
  s2 ≠ s1 →
  update_metrics s2 l w = (Ok tt, w).
Proof.
  intros Hskip Hcur Hne. apply (update_metrics_gated l s2 w (Some s1)); [assumption..|].
  cbn. apply bool_decide_eq_true_2. congruence.
Qed.

Lemma update_metrics_other_stage_noop_witness :
  let w := run (start "train" 7 70) (fresh false) in
  update_metrics "eval" 0%nat w = (Ok tt, w).
Proof.
  intros w.
  apply (update_metrics_other_stage_noop w "train" "eval" 0%nat);
    [reflexivity | reflexivity | discriminate].
Defined.

End Frames.

Section KeysApart.

(** X15. The keys [update_metrics] writes never collide, whatever the
    stage names: a delta key determines its domain, its stage and its
    kind, and no delta key is a [before_init] key. *)
Theorem metric_keys_distinct (d1 d2 d' : Domain) (e1 e2 k1 k2 : string) :
  k1 ∈ kinds → k2 ∈ kinds →
  (delta_key d1 e1 k1 = delta_key d2 e2 k2 → d1 = d2 ∧ e1 = e2 ∧ k1 = k2) ∧
  delta_key d1 e1 k1 ≠ before_init_key d'.
Proof.
  intros H1 H2. split.
  - now apply delta_key_inj.
  - now apply delta_key_not_before_init.
Qed.

Lemma metric_keys_distinct_witness :
  delta_key Cpu "before_init" "alloc" ≠ before_init_key Cpu.
Proof.
  apply (metric_keys_distinct Cpu Gpu Cpu "before_init" "x" "alloc" "peaked").
  - left.
  - right. left.
Defined.

End KeysApart.

Section RepeatedReport.

Lemma dict_after_noop evs l : ∀ m,
  (∀ key v, EvSetItem l key v ∈ evs → m !! key = Some v) →
  dict_after evs l m = m.
Proof.
  induction evs as [|e evs IH]; intros m Hall; [reflexivity|].
  unfold dict_after in *. cbn [foldl].
  assert (Hstep : match e with
                  | EvSetItem l' key v => if decide (l' = l) then <[key:=v]> m else m
                  | _ => m
                  end = m).
  { destruct e as [| | | | | | |l' key v]; try reflexivity.
    destruct (decide (l' = l)) as [->|]; [|reflexivity].
    apply insert_id, Hall. left. }
  rewrite Hstep. apply IH. intros key v Hin. apply Hall. now right.
Qed.

Lemma before_init_value l cm gm reported stage d snap v m :
  (before_init_result l cm gm reported stage).1 = Ok tt →
  EvSetItem l (before_init_key d) v ∈ (before_init_result l cm gm reported stage).2 →
  domain_dict cm gm d !! Some "init"%string = Some snap →
  dict_after (update_writes l cm gm reported stage) l m !! before_init_key d = Some v.
Proof.
  intros Hok Hin Hsnap.
  apply dict_after_written.
  - right. exists v. apply elem_of_update_writes. now right.
  - intros v' Hin'.
    assert (Hval : ∀ u, EvSetItem l (before_init_key d) u
                          ∈ (before_init_result l cm gm reported stage).2 →
                        u = snap_begin snap).
    { intros u Hu. apply elem_of_before_init in Hu as (_ & d' & snap' & Hs & Heq).
      injection Heq as Hkey ->. apply before_init_key_inj in Hkey as ->. congruence. }
    rewrite (Hval v Hin).
    apply elem_of_update_writes in Hin' as [Hin'|Hin']; [|now apply Hval].
    destruct Hin' as (d' & e & k & snap' & v'' & _ & Hk & _ & _ & Heq).
    injection Heq as Hkey _. symmetry in Hkey.
    now apply delta_key_not_before_init in Hkey.
Qed.

(** X16. A report that returned normally can be repeated: a second
    [update_metrics] for the same stage and dictionary returns normally
    too and leaves every dictionary and the tracker exactly as the first
    left them (it writes the same values again). *)
Theorem repeated_report_changes_nothing w stage l m cur reported cm gm :
  skip_memory_metrics (self w) = false →
  cur_stage (self w) = Some cur →
  other_stage_open cur stage = false →
  init_reported (self w) = Some reported →
  cpu (self w) = Some cm →
  gpu (self w) = Some gm →
  heap w !! l = Some m →
  outcome (update_metrics stage l) w = Ok tt →
  let w1 := run (update_metrics stage l) w in
  outcome (update_metrics stage l) w1 = Ok tt ∧
  heap (run (update_metrics stage l) w1) = heap w1 ∧
  self (run (update_metrics stage l) w1) = self w1.
Proof.
  intros Hskip Hcur Hopen Hrep Hc Hg Hm Hok w1.
  destruct (update_metrics_effects l stage w cur reported cm gm)
    as (Hout & _ & Hheap & Hself); try assumption.
  fold w1 in Hheap, Hself. rewrite Hout in Hok.
  assert (Hw1 : skip_memory_metrics (self w1) = false ∧
                cur_stage (self w1) = Some cur ∧
                init_reported (self w1) = Some true ∧
                cpu (self w1) = Some cm ∧ gpu (self w1) = Some gm).
  { rewrite Hself. open_world w. repeat split. }
  destruct Hw1 as (Hskip1 & Hcur1 & Hrep1 & Hc1 & Hg1).
  destruct (update_metrics_effects l stage w1 cur true cm gm)
    as (Hout2 & _ & Hheap2 & Hself2); try assumption.
  assert (Hok2 : (before_init_result l cm gm true stage).1 = Ok tt).
  { revert Hok. unfold before_init_result. cbn [negb orb].
    destruct (bool_decide (stage = "init"%string)); [|reflexivity].
    now rewrite orb_true_r. }
  split; [now rewrite Hout2|]. split.
  - rewrite Hheap2. apply map_eq. intros l'. rewrite replay_lookup.
    destruct (heap w1 !! l') as [m'|] eqn:Hl'; [|reflexivity].
    change (Some (dict_after (update_writes l cm gm true stage) l' m') = Some m').
    f_equal.
    destruct (decide (l' = l)) as [->|Hne].
    + assert (m' = dict_after (update_writes l cm gm reported stage) l m) as ->.
      { rewrite Hheap, replay_lookup, Hm in Hl'. cbn in Hl'. congruence. }
      apply dict_after_noop. intros key v Hin.
      apply elem_of_update_writes in Hin as [Hin|Hin].
      * destruct Hin as (d & e & k & snap & v' & He & Hk & Hsnap & Hv & Heq).
        injection Heq as -> ->.
        cbn in He. apply list_elem_of_singleton in He as ->.
        rewrite <- Hv. apply written_delta_value; [|assumption..].
        unfold emitted. destruct reported; [left | right; left].
      * pose proof Hin as Hin'.
        apply elem_of_before_init in Hin' as (Hwhy & d & snap & Hsnap & Heq).
        destruct Hwhy as [Hf|Hs]; [discriminate Hf|]. subst stage.
        injection Heq as -> ->.
        apply (before_init_value l cm gm reported "init" d snap); try assumption.
        revert Hok Hin. unfold before_init_result.
        rewrite bool_decide_eq_true_2 by reflexivity. cbn [negb orb].
        now rewrite orb_true_r.
    + apply (dict_after_elsewhere _ l); [assumption|].
      intros l0 key v Hin. apply elem_of_update_writes in Hin as [Hin|Hin].
      * destruct Hin as (d & e & k & snap & v' & _ & _ & _ & _ & Heq).
        now injection Heq as -> _ _.
      * apply elem_of_before_init in Hin as (_ & d & snap & _ & Heq).
        now injection Heq as -> _ _.
  - rewrite Hself2, Hself. apply set_init_reported_twice.
Qed.

Lemma repeated_report_changes_nothing_witness :
  let w1 := run (update_metrics "train" 0%nat) init_then_train in
  heap (run (update_metrics "train" 0%nat) w1) = heap w1.
Proof.
  intros w1.
  destruct (repeated_report_changes_nothing init_then_train "train" 0%nat ∅ None false
              (default ∅ (cpu (self init_then_train)))
              (default ∅ (gpu (self init_then_train)))
              eq_refl eq_refl eq_refl eq_refl eq_refl eq_refl eq_refl eq_refl)
    as (_ & H & _).
  exact H.
Defined.

End RepeatedReport.

Section ModuleTest.

Lemma getitem_metrics_runs l key v w m :
  heap w !! l = Some m → m !! key = Some v →
  getitem_metrics l key w = (Ok v, w).
Proof. intros Hl Hk. unfold getitem_metrics. now rewrite Hl, Hk. Qed.

(** The first cycle of a tracker, for the stage [init], reported into an
    empty dictionary: what [stop_and_update_metrics] leaves. *)
Lemma first_init_report w caller l (gb cb pk ge gp ce : Z) :
  skip_memory_metrics (self w) = false →
  process (self w) = Some tt →
  stages !! caller = Some "init"%string →
  cur_stage (self w) = Some (Some "init"%string) →
  init_reported (self w) = Some false →
  gpu (self w) = Some ∅ →
  cpu (self w) = Some ∅ →
  gpu_memory_used_at_start (self w) = Some gb →
  cpu_memory_used_at_start (self w) = Some cb →
  cpu_memory_used_peak (self w) = Some pk →
  heap w !! l = Some ∅ →
  let gsnap := mkSnapshot gb ge (ge - gb) (Z.max 0 (gp - ge)) in
  ∃ w5 m5,
    stop_and_update_metrics caller ge gp ce (Some l) w = (Ok tt, w5) ∧
    heap w5 !! l = Some m5 ∧
    m5 !! "before_init_memory_gpu"%string = Some gb ∧
    m5 !! "init_memory_gpu_alloc_delta"%string = Some (ge - gb) ∧
    m5 !! "init_memory_gpu_peaked_delta"%string = Some (Z.max 0 (gp - ge)).
Proof.
  intros Hskip Hproc Hst Hcur Hrep Hg Hc Hgs Hcs Hpk Hl gsnap.
  set (csnap := mkSnapshot cb ce (ce - cb) (Z.max 0 (pk - ce))).
  set (gm := <[Some "init"%string := gsnap]> (∅ : gmap StageKey Snapshot)).
  set (cm := <[Some "init"%string := csnap]> (∅ : gmap StageKey Snapshot)).
  set (evs := update_writes l cm gm false "init").
  assert (Hgi : gm !! Some "init"%string = Some gsnap) by apply lookup_insert_eq.
  assert (Hci : cm !! Some "init"%string = Some csnap) by apply lookup_insert_eq.
  assert (Hopen : other_stage_open (Some "init"%string) "init" = false).
  { cbn. apply bool_decide_eq_false_2. auto. }
  unfold stop_and_update_metrics. rewrite Hskip.
  unfold bind at 1. rewrite (derive_stage_known _ _ _ Hst).
  unfold bind at 1.
  rewrite (stop_runs w "init" (Some "init"%string) ∅ ∅ gb cb pk ge gp ce)
    by assumption.
  fold gsnap csnap gm cm.
  erewrite (update_metrics_runs l "init" _ None false cm gm);
    [|open_world w; reflexivity..].
  assert (Hok : (before_init_result l cm gm false "init").1 = Ok tt).
  { unfold before_init_result. cbn [negb orb]. now rewrite Hci, Hgi. }
  rewrite Hok. fold evs.
  eexists _, (dict_after evs l ∅). split; [reflexivity|].
  split; [unfold wrote; cbn [heap]; now rewrite replay_lookup, Hl|].
  split; [|split].
  - apply (before_init_written l cm gm "init" Gpu gsnap ∅); eauto.
  - apply (written_delta_value l cm gm false "init" Gpu "init" "alloc" gsnap ∅);
      [left | left | exact Hgi].
  - apply (written_delta_value l cm gm false "init" Gpu "init" "peaked" gsnap ∅);
      [left | right; left | exact Hgi].
Qed.

(** X17. [test_MemoryTracker]: whatever the dictionaries in use and
    whatever the readings, the tracker calls raise nothing and
    [gpu_memory_required], the sum of the accelerator's baseline, delta and
    peak above the end, is the larger of the accelerator's end and peak
    readings; the baseline reported is the begin reading. *)
Theorem test_MemoryTracker_requirement w (gpu_begin cpu_begin : Z) (rs : list Z)
    (gpu_end gpu_peak cpu_end : Z) :
  let test := test_MemoryTracker gpu_begin cpu_begin rs gpu_end gpu_peak cpu_end in
  outcome test w = Ok (Z.max gpu_end gpu_peak) ∧
  ∃ m, heap (run test w) !! base.fresh (dom (heap w)) = Some m ∧
       m !! "before_init_memory_gpu"%string = Some gpu_begin.
Proof.
  intros test.
  set (l := base.fresh (dom (heap w))).
  assert (Hrun : ∃ w5 m5,
            test w = (Ok (Z.max gpu_end gpu_peak), w5) ∧
            heap w5 !! l = Some m5 ∧
            m5 !! "before_init_memory_gpu"%string = Some gpu_begin).
  { unfold test, test_MemoryTracker.
    unfold bind at 1. unfold setattr at 1.
    unfold bind at 1.
    erewrite (start_runs _ "test_MemoryTracker" "init" None) by reflexivity.
    unfold bind at 1. unfold peak_monitor_function, bind at 1, setattr at 1.
    erewrite peak_monitor_loop_runs with (flag := true) (peak := -1) by reflexivity.
    rewrite loop_result_samples.
    unfold bind at 1. unfold new_dict at 1. cbn [self heap log]. fold l.
    unfold bind at 1.
    match goal with
    | |- context [stop_and_update_metrics _ _ _ _ _ ?w3] =>
        destruct (first_init_report w3 "test_MemoryTracker" l gpu_begin cpu_begin
                    (fold_right Z.max (-1) rs) gpu_end gpu_peak cpu_end)
          as (w5 & m5 & Hstop & Hl & Hbefore & Halloc & Hpeaked);
        [reflexivity.. | apply lookup_insert_eq |]
    end.
    rewrite Hstop.
    unfold bind at 1. rewrite (getitem_metrics_runs _ _ _ _ _ Hl Hbefore).
    unfold bind at 1. rewrite (getitem_metrics_runs _ _ _ _ _ Hl Halloc).
    unfold bind at 1. rewrite (getitem_metrics_runs _ _ _ _ _ Hl Hpeaked).
    unfold ret. exists w5, m5. split; [|split; assumption].
    f_equal. f_equal. lia. }
  destruct Hrun as (w5 & m5 & Hrun & Hl & Hbefore).
  unfold outcome, run. rewrite Hrun. cbn [fst snd].
  split; [reflexivity|]. exists m5. split; assumption.
Qed.

End ModuleTest.
